(** * flytekit.annotated.workflow: the tracing compiler and its call dispatcher

    A shallow embedding of [src/flytekit/annotated/workflow.py].  Python
    objects become records and inductive types, raised exceptions become
    the [Err] branch of [result], and the ambient [FlyteContext] is passed
    explicitly: a workflow body is a function from its keyword arguments
    and the current context to a returned value and the context as it left
    it. *)

From stdpp Require Import base option list strings gmap sorting pretty.
From Stdlib Require Import ZArith.

Set Warnings "-register-all,-clear-no-such-hyp".
Set Default Proof Using "Type".
Open Scope string_scope.

(** ** Exceptions *)

(** Payload of the [FlyteAssertion]s raised by [_create_and_link_node];
    their messages format a type and a Python set, which are kept as data. *)
Inductive LiteralType : Type :=
| LT_integer
| LT_float
| LT_string
| LT_boolean
| LT_collection (elt : LiteralType).

Inductive user_msg : Type :=
| InputNotSpecified (k : string) (t : LiteralType)
| TooManyInputs (extra_inputs : gset string).

Inductive exn : Type :=
| AssertionError (msg : string)
| ValueError (msg : string)
| Exception (msg : string)
| TypeError (msg : string)
| KeyError (key : string)
| IndexError (msg : string)
| AttributeError (msg : string)
| FlyteAssertion (msg : user_msg).

Inductive result (A : Type) : Type :=
| Ok (a : A)
| Err (e : exn).
Arguments Ok {A} a.
Arguments Err {A} e.

#[global] Instance result_ret : MRet result := λ A a, Ok a.
#[global] Instance result_bind : MBind result := λ A B f m,
  match m with
  | Ok a => f a
  | Err e => Err e
  end.
#[global] Instance result_fmap : FMap result := λ A B f m,
  match m with
  | Ok a => Ok (f a)
  | Err e => Err e
  end.

Definition is_Ok {A} (r : result A) : Prop := ∃ a, r = Ok a.
Definition is_Err {A} (r : result A) : Prop := ∃ e, r = Err e.

(** ** Values of the host language *)

(** Host types of a signature ([self._native_interface]) and concrete host
    values. *)
Inductive PyType : Type :=
| T_int
| T_float
| T_str
| T_bool
| T_list (elt : PyType).

Inductive native : Type :=
| NInt (z : Z)
| NStr (s : string)
| NBool (b : bool)
| NList (l : list native).

(** [flytekit.models.literals]: wire literals, binding data and bindings.
    A promise inside binding data is an [OutputReference]: node id and
    output variable. *)
Inductive Literal : Type :=
| Lit_integer (z : Z)
| Lit_string (s : string)
| Lit_boolean (b : bool)
| Lit_collection (l : list Literal).

Inductive BindingData : Type :=
| BD_scalar (l : Literal)
| BD_promise (node_id var : string)
| BD_collection (l : list BindingData).

Record Binding : Type := mkBinding {
  b_var : string;
  b_binding : BindingData
}.

Record NodeMetadata : Type := mkNodeMetadata {
  md_name : string;
  md_timeout : Z;
  md_retries : nat
}.

(** [flytekit.annotated.node.Node].  The represented entity is recorded by
    its name; the constructor stores its arguments as given. *)
Inductive Node : Type := mkNode {
  node_id : string;
  node_metadata : NodeMetadata;
  node_bindings : list Binding;
  node_upstream_nodes : list Node;
  node_flyte_entity : string
}.

(** [flytekit.common.promise.NodeOutput(sdk_node, sdk_type=None, var)]. *)
Record NodeOutput : Type := mkNodeOutput {
  sdk_node : Node;
  no_var : string
}.

(** Modelled from the spec: the [Promise] class (flytekit.annotated.promise
    is not among the sources).  A promise has a variable name and exactly
    one of a concrete literal or a reference to a node output. *)
Inductive PromiseVal : Type :=
| Ready (l : Literal)
| Ref (o : NodeOutput).

Record Promise : Type := mkPromise {
  p_var : string;
  p_payload : PromiseVal
}.

(** [promise.val]: the literal, [None] for a reference. *)
Definition val (p : Promise) : option Literal :=
  match p_payload p with
  | Ready l => Some l
  | Ref _ => None
  end.

(** [promise.ref]: the node output, [None] for a literal promise. *)
Definition ref (p : Promise) : option NodeOutput :=
  match p_payload p with
  | Ready _ => None
  | Ref o => Some o
  end.

(** Modelled from the spec: [Promise.with_var], the same promise renamed to
    another variable. *)
Definition with_var (k : string) (p : Promise) : Promise :=
  mkPromise k (p_payload p).

(** What a workflow body can be handed or can return. *)
Inductive value : Type :=
| VNone
| VNative (n : native)
| VPromise (p : Promise)
| VOutputReference (node_id var : string)
| VConditionalSection
| VTuple (vs : list value).

(** A Python dict: insertion ordered, keys unique. *)
Definition dict (V : Type) : Type := list (string * V).
Definition kwargs : Type := dict value.

Definition keys {V} (d : dict V) : list string := d.*1.
Definition values {V} (d : dict V) : list V := d.*2.

Fixpoint dict_get {V} (k : string) (d : dict V) : option V :=
  match d with
  | [] => None
  | (k', v) :: d' => if decide (k = k') then Some v else dict_get k d'
  end.

Definition dict_mem {V} (k : string) (d : dict V) : bool :=
  bool_decide (is_Some (dict_get k d)).

(** [d[k] = v]: overwrite in place, or append a new key. *)
Fixpoint dict_set {V} (k : string) (v : V) (d : dict V) : dict V :=
  match d with
  | [] => [(k, v)]
  | (k', v') :: d' =>
      if decide (k = k') then (k, v) :: d' else (k', v') :: dict_set k v d'
  end.

(** [d.update(e)]. *)
Definition dict_update {V} (d e : dict V) : dict V :=
  foldl (λ acc kv, dict_set kv.1 kv.2 acc) d e.

(** [d[k]], raising [KeyError]. *)
Definition dict_item {V} (k : string) (d : dict V) : result V :=
  match dict_get k d with
  | Some v => Ok v
  | None => Err (KeyError k)
  end.

(** Python's [len] and iteration, on the values that have them. *)
Definition py_items (v : value) : option (list value) :=
  match v with
  | VTuple vs => Some vs
  | VNative (NList l) => Some (VNative <$> l)
  | VNative (NStr s) =>
      Some ((λ c, VNative (NStr (String c EmptyString))) <$> String.list_ascii_of_string s)
  | _ => None
  end.

Definition py_len (v : value) : result nat :=
  match py_items v with
  | Some vs => Ok (length vs)
  | None => Err (TypeError "object has no len()")
  end.

Definition py_iter (v : value) : result (list value) :=
  match py_items v with
  | Some vs => Ok vs
  | None => Err (TypeError "object is not iterable")
  end.

(** [sorted(l, key=key)]: stable, keys compared as Python compares [str]. *)
Fixpoint insert_by {A} (key : A → string) (x : A) (l : list A) : list A :=
  match l with
  | [] => [x]
  | y :: l' =>
      if String.leb (key x) (key y) then x :: y :: l'
      else y :: insert_by key x l'
  end.

Definition sorted {A} (key : A → string) (l : list A) : list A :=
  foldr (insert_by key) [] l.

(** ** Interfaces, contexts and the workflow object *)

Record VariableModel : Type := mkVariable {
  var_type : LiteralType;
  var_description : string
}.

Record Interface_ (T : Type) : Type := mkInterface {
  inputs : dict T;
  outputs : dict T
}.
Arguments mkInterface {T} _ _.
Arguments inputs {T} _.
Arguments outputs {T} _.

Definition Interface : Type := Interface_ PyType.
Definition TypedInterface : Type := Interface_ VariableModel.

Record CompilationState : Type := mkCompilationState {
  nodes : list Node
}.

Inductive Mode : Type :=
| TASK_EXECUTION
| LOCAL_WORKFLOW_EXECUTION.

Record ExecutionState : Type := mkExecutionState {
  mode : Mode
}.

Record RegistrationSettings : Type := mkRegistrationSettings {
  _project : string;
  _domain : string;
  _version : string
}.

(** The state of a context: the compilation state, execution state and
    registration settings that are active in it, [None] where none was
    initialised in the context or in one it was entered from.  The
    registration settings are read through the property
    [current_registration_settings] below, which raises when there are
    none. *)
Record FlyteContext : Type := mkFlyteContext {
  compilation_state : option CompilationState;
  execution_state : option ExecutionState;
  registration_settings : option RegistrationSettings
}.

(** Modelled from the spec: [FlyteContext.new_compilation_context] enters a
    fresh tracing context, with an empty node list; everything else is
    inherited from the enclosing context. *)
Definition new_compilation_context (ctx : FlyteContext) : FlyteContext :=
  mkFlyteContext (Some (mkCompilationState []))
                 (execution_state ctx) (registration_settings ctx).

(** Modelled from the spec: [FlyteContext.new_execution_context] enters a
    fresh execution marker of the given mode. *)
Definition new_execution_context (m : Mode) (ctx : FlyteContext) : FlyteContext :=
  mkFlyteContext (compilation_state ctx)
                 (Some (mkExecutionState m)) (registration_settings ctx).

(** [ctx.compilation_state.nodes.append(node)]. *)
Definition append_node (node : Node) (cs : CompilationState) (ctx : FlyteContext)
  : FlyteContext :=
  mkFlyteContext (Some (mkCompilationState (nodes cs ++ [node])))
                 (execution_state ctx) (registration_settings ctx).

Inductive ResourceType : Type :=
| TASK
| WORKFLOW
| LAUNCH_PLAN.

Record Identifier : Type := mkIdentifier {
  id_resource_type : ResourceType;
  id_project : string;
  id_domain : string;
  id_name : string;
  id_version : string
}.

(** What [Node.get_registerable_entity] yields. *)
Record SdkNode : Type := mkSdkNode {
  sdk_id : string;
  sdk_upstream_node_ids : list string;
  sdk_inputs : list Binding
}.

Record SdkWorkflow : Type := mkSdkWorkflow {
  sw_nodes : list SdkNode;
  sw_id : Identifier;
  sw_interface : TypedInterface;
  sw_output_bindings : option (list Binding)
}.

Definition workflow_body : Type :=
  kwargs → FlyteContext → result (value * FlyteContext).

Record Workflow : Type := mkWorkflow {
  _name : string;
  _workflow_function : workflow_body;
  _native_interface : Interface;
  _interface : TypedInterface;
  _nodes : option (list Node);
  _output_bindings : option (list Binding);
  _registerable_entity : option SdkWorkflow;
  _input_parameters : option (dict VariableModel)
}.

Definition interface (self : Workflow) : TypedInterface := _interface self.

Definition set_function (f : workflow_body) (self : Workflow) : Workflow :=
  mkWorkflow (_name self) f (_native_interface self) (_interface self)
             (_nodes self) (_output_bindings self) (_registerable_entity self)
             (_input_parameters self).

Definition set_input_parameters (ps : dict VariableModel) (self : Workflow) : Workflow :=
  mkWorkflow (_name self) (_workflow_function self) (_native_interface self)
             (_interface self) (_nodes self) (_output_bindings self)
             (_registerable_entity self) (Some ps).

Definition set_compiled (ns : list Node) (bs : list Binding) (self : Workflow) : Workflow :=
  mkWorkflow (_name self) (_workflow_function self) (_native_interface self)
             (_interface self) (Some ns) (Some bs)
             (_registerable_entity self) (_input_parameters self).

Definition set_registerable_entity (e : SdkWorkflow) (self : Workflow) : Workflow :=
  mkWorkflow (_name self) (_workflow_function self) (_native_interface self)
             (_interface self) (_nodes self) (_output_bindings self)
             (Some e) (_input_parameters self).

(** ** Collaborators

    Code of flytekit that [workflow.py] calls and that lies outside it: the
    literal type engine, binding construction, interface transformation and
    node export.  Each is a parameter; each may raise. *)
Class Collaborators : Type := {
  GLOBAL_INPUT_NODE_ID : string;
  binding_from_python_std :
    FlyteContext → string → LiteralType → value → PyType → result Binding;
  to_literal : FlyteContext → value → PyType → LiteralType → result Literal;
  to_python_value : FlyteContext → option Literal → PyType → result native;
  transform_interface_to_typed_interface : Interface → TypedInterface;
  transform_inputs_to_parameters : Interface → dict VariableModel;
  node_get_registerable_entity : FlyteContext → Node → result SdkNode;
  (* what reading [FlyteContext.registration_settings] raises when no
     registration settings are active *)
  no_registration_settings : exn
}.

(** Modelled from the spec: [create_task_output] wraps the output promises
    into the calling convention of a workflow body, a single value for
    exactly one output and an ordered tuple otherwise; no promise list at
    all ([None], what [_workflow_fn_outputs_to_promise] returns for a
    workflow without outputs) stays [None], which is what [__call__] tests
    for. *)
Definition create_task_output (promises : option (list Promise)) : value :=
  match promises with
  | None => VNone
  | Some [p] => VPromise p
  | Some ps => VTuple (VPromise <$> ps)
  end.

(** ** The functions of workflow.py *)

Section workflow.
Context `{Collaborators}.

(** The loop at the end of [_workflow_fn_outputs_to_promise]: recast the
    values returned by the body under the output names of the workflow. *)
Fixpoint recast_outputs (ctx : FlyteContext) (typed_outputs : dict VariableModel)
    (items : list ((string * PyType) * value)) : result (list Promise) :=
  match items with
  | [] => Ok []
  | ((k, t), v) :: items' =>
      p ← match v with
          | VPromise p => Ok (with_var k p)
          | _ =>
              var ← dict_item k typed_outputs;
              l ← to_literal ctx v t (var_type var);
              Ok (mkPromise k (Ready l))
          end;
      return_vals ← recast_outputs ctx typed_outputs items';
      Ok (p :: return_vals)
  end.

Definition _workflow_fn_outputs_to_promise (ctx : FlyteContext)
    (native_outputs : dict PyType) (typed_outputs : dict VariableModel)
    (outputs : value) : result (option (list Promise)) :=
  match length native_outputs with
  | 0 =>
      match outputs with
      | VNone => Ok None
      | _ => Err (AssertionError "something returned from wf but shouldn't have outputs")
      end
  | 1 =>
      vs ← match outputs with
           | VTuple vs =>
               if bool_decide (length vs ≠ 1) then
                 Err (AssertionError
                   ("The Workflow specification indicates only one return value, received "
                    +:+ pretty (length vs)))
               else Ok vs
           | _ => Ok [outputs]
           end;
      Some <$> recast_outputs ctx typed_outputs (zip native_outputs vs)
  | S (S _) =>
      vs ← match outputs with
           | VTuple vs =>
               if bool_decide (length native_outputs ≠ length vs) then
                 Err (AssertionError
                   ("The workflow specification indicates "
                    +:+ pretty (length native_outputs)
                    +:+ " return vals, but received " +:+ pretty (length vs)))
               else Ok vs
           | _ =>
               n ← py_len outputs;
               Err (AssertionError
                 ("The workflow specification indicates "
                  +:+ pretty (length native_outputs)
                  +:+ " return vals, but received " +:+ pretty n))
           end;
      Some <$> recast_outputs ctx typed_outputs (zip native_outputs vs)
  end.

Definition _construct_input_promises (self : Workflow) : kwargs :=
  (λ k, (k, VOutputReference GLOBAL_INPUT_NODE_ID k)) <$> keys (inputs (interface self)).

(** What [compile] returns: [None], one binding, or a tuple of bindings. *)
Inductive compile_return : Type :=
| CR_None
| CR_Binding (b : Binding)
| CR_Tuple (bs : list Binding).

(** The loop of [compile] over the declared outputs, more than one. *)
Fixpoint bind_outputs (self : Workflow) (ctx : FlyteContext)
    (items : list (string * value)) : result (list Binding) :=
  match items with
  | [] => Ok []
  | (out, v) :: items' =>
      b ← match v with
          | VConditionalSection =>
              Err (AssertionError
                "A Conditional block (if-else) should always end with an `else_()` clause")
          | _ =>
              t ← dict_item out (outputs (_native_interface self));
              var ← dict_item out (outputs (interface self));
              binding_from_python_std ctx out (var_type var) v t
          end;
      bindings ← bind_outputs self ctx items';
      Ok (b :: bindings)
  end.

(** The binding phase of [compile]: one binding per declared output, from
    what the traced body returned. *)
Definition bind_workflow_outputs (self : Workflow) (ctx : FlyteContext)
    (workflow_outputs : value) : result (list Binding) :=
  let output_names := keys (outputs (interface self)) in
  match output_names with
  | [] => Ok []
  | [out] =>
      _ ← match workflow_outputs with
          | VTuple vs =>
              if bool_decide (length vs ≠ 1) then
                Err (AssertionError
                  ("The Workflow specification indicates only one return value, received "
                   +:+ pretty (length vs)))
              else Ok ()
          | _ => Ok ()
          end;
      t ← dict_item out (outputs (_native_interface self));
      var ← dict_item out (outputs (interface self));
      b ← binding_from_python_std ctx out (var_type var) workflow_outputs t;
      Ok [b]
  | _ =>
      match workflow_outputs with
      | VTuple vs =>
          if bool_decide (length output_names ≠ length vs) then
            Err (Exception ("Length mismatch " +:+ pretty (length output_names)
                            +:+ " vs " +:+ pretty (length vs)))
          else bind_outputs self ctx (zip output_names vs)
      | _ =>
          Err (AssertionError
            "The Workflow specification indicates multiple return values, received only one")
      end
  end.

Definition compile (self : Workflow) (kw : kwargs) (ctx : FlyteContext)
  : result (compile_return * Workflow) :=
  let self := set_input_parameters
                (transform_inputs_to_parameters (_native_interface self)) self in
  let comp_ctx := new_compilation_context ctx in
  let input_kwargs := dict_update (_construct_input_promises self) kw in
  '(workflow_outputs, comp_ctx) ← _workflow_function self input_kwargs comp_ctx;
  all_nodes ← match compilation_state comp_ctx with
              | Some cs => Ok (nodes cs)
              | None => Err (AttributeError "'NoneType' object has no attribute 'nodes'")
              end;
  bindings ← bind_workflow_outputs self ctx workflow_outputs;
  let self := set_compiled all_nodes bindings self in
  match keys (outputs (interface self)), bindings with
  | [], _ => Ok (CR_None, self)
  | [_], b :: _ => Ok (CR_Binding b, self)
  | [_], [] => Err (IndexError "list index out of range")
  | _, _ => Ok (CR_Tuple bindings, self)
  end.

(** The first loop of [_local_execute]: every argument that is not a
    promise is replaced, in place, by a promise holding its literal. *)
Fixpoint promote_kwargs (self : Workflow) (ctx : FlyteContext) (kw : kwargs)
  : result kwargs :=
  match kw with
  | [] => Ok []
  | (k, v) :: kw' =>
      v' ← match v with
           | VPromise _ => Ok v
           | _ =>
               t ← dict_item k (inputs (_native_interface self));
               var ← dict_item k (inputs (interface self));
               l ← to_literal ctx v t (var_type var);
               Ok (VPromise (mkPromise k (Ready l)))
           end;
      rest ← promote_kwargs self ctx kw';
      Ok ((k, v') :: rest)
  end.

Definition _local_execute (self : Workflow) (ctx : FlyteContext) (kw : kwargs)
  : result (value * FlyteContext) :=
  (* the log line reads [ctx.execution_state.Mode] *)
  _ ← match execution_state ctx with
      | Some _ => Ok ()
      | None => Err (AttributeError "'NoneType' object has no attribute 'Mode'")
      end;
  kw ← promote_kwargs self ctx kw;
  '(function_outputs, ctx) ← _workflow_function self kw ctx;
  promises ← _workflow_fn_outputs_to_promise ctx
                (outputs (_native_interface self)) (outputs (interface self))
                function_outputs;
  Ok (create_task_output promises, ctx).

(** The loop of [_create_and_link_node] over the sorted declared inputs. *)
Fixpoint bind_inputs (self : Workflow) (ctx : FlyteContext) (kw : kwargs)
    (ks : list string) (bindings : list Binding) (used_inputs : gset string)
  : result (list Binding * gset string) :=
  match ks with
  | [] => Ok (bindings, used_inputs)
  | k :: ks' =>
      var ← dict_item k (inputs (interface self));
      match dict_get k kw with
      | None => Err (FlyteAssertion (InputNotSpecified k (var_type var)))
      | Some v =>
          t ← dict_item k (inputs (_native_interface self));
          b ← binding_from_python_std ctx k (var_type var) v t;
          bind_inputs self ctx kw ks' (bindings ++ [b]) (used_inputs ∪ {[k]})
      end
  end.

(** [[input_val.ref.sdk_node for input_val in kwargs.values()
      if isinstance(input_val, Promise)]]. *)
Fixpoint upstream_of (vs : list value) : result (list Node) :=
  match vs with
  | [] => Ok []
  | VPromise p :: vs' =>
      match ref p with
      | Some o => ns ← upstream_of vs'; Ok (sdk_node o :: ns)
      | None => Err (AttributeError "'NoneType' object has no attribute 'sdk_node'")
      end
  | _ :: vs' => upstream_of vs'
  end.

(** Python's [s ^ t] on sets. *)
Definition symmetric_difference (s t : gset string) : gset string :=
  (s ∖ t) ∪ (t ∖ s).

Definition _create_and_link_node (self : Workflow) (ctx : FlyteContext) (kw : kwargs)
  : result (value * FlyteContext) :=
  '(bindings, used_inputs) ←
     bind_inputs self ctx kw (sorted id (keys (inputs (interface self)))) [] ∅;
  let extra_inputs := symmetric_difference used_inputs (list_to_set (keys kw)) in
  if bool_decide (0 < size extra_inputs) then
    Err (FlyteAssertion (TooManyInputs extra_inputs))
  else
    upstream_nodes ← upstream_of (values kw);
    cs ← match compilation_state ctx with
         | Some cs => Ok cs
         | None => Err (AttributeError "'NoneType' object has no attribute 'nodes'")
         end;
    let node :=
      mkNode ("node-" +:+ pretty (length (nodes cs)))
             (mkNodeMetadata (_name self) 0 0)
             (sorted b_var bindings)
             upstream_nodes
             (_name self) in
    let ctx := append_node node cs ctx in
    let node_outputs :=
      (λ output_name, mkPromise output_name (Ref (mkNodeOutput node output_name)))
        <$> keys (outputs (interface self)) in
    Ok (create_task_output (Some node_outputs), ctx).

(** The sanity checks of a top-level call. *)
Fixpoint check_native_kwargs (self : Workflow) (kw : kwargs) : result () :=
  match kw with
  | [] => Ok ()
  | (k, v) :: kw' =>
      if negb (dict_mem k (inputs (interface self))) then
        Err (ValueError ("Received unexpected keyword argument " +:+ k))
      else
        match v with
        | VPromise _ =>
            Err (ValueError
              ("Received a promise for a workflow call, when expecting a native value for "
               +:+ k))
        | _ => check_native_kwargs self kw'
        end
  end.

(** The list comprehension converting the promises of a result tuple. *)
Fixpoint native_list (self : Workflow) (ctx : FlyteContext) (result_ : list value)
  : result (list native) :=
  match result_ with
  | [] => Ok []
  | VPromise promise :: rest =>
      t ← dict_item (p_var promise) (outputs (_native_interface self));
      n ← to_python_value ctx (val promise) t;
      ns ← native_list self ctx rest;
      Ok (n :: ns)
  | _ :: _ => Err (AttributeError "object has no attribute 'val'")
  end.

(** The tail of a top-level call: compare the result with the declared
    output count and turn its promises back into native values. *)
Definition native_result (self : Workflow) (ctx : FlyteContext) (result_ : value)
  : result value :=
  let mismatch := Err (ValueError "expected outputs and actual outputs do not match") in
  let expected_outputs := length (outputs (_native_interface self)) in
  matches ←
    match result_ with
    | VNone =>
        if bool_decide (expected_outputs = 0) then Ok true
        else if bool_decide (1 < expected_outputs) then
          n ← py_len result_; Ok (bool_decide (n = expected_outputs))
        else Ok false
    | _ =>
        if bool_decide (1 < expected_outputs) then
          n ← py_len result_; Ok (bool_decide (n = expected_outputs))
        else Ok (bool_decide (expected_outputs = 1))
    end;
  if matches : bool then
    match result_ with
    | VNone => Ok VNone
    | VPromise p =>
        match outputs (_native_interface self) with
        | (_, v) :: _ => VNative <$> to_python_value ctx (val p) v
        | [] => Err (IndexError "list index out of range")
        end
    | _ =>
        items ← py_iter result_;
        match items with
        | [] => mismatch
        | VPromise _ :: _ => (λ ns, VTuple (VNative <$> ns)) <$> native_list self ctx items
        | _ :: _ => Err (Exception "should be promises")
        end
    end
  else mismatch.

Definition is_local_workflow_execution (ctx : FlyteContext) : bool :=
  match execution_state ctx with
  | Some (mkExecutionState LOCAL_WORKFLOW_EXECUTION) => true
  | _ => false
  end.

Definition __call__ (self : Workflow) (args : list value) (kw : kwargs)
    (ctx : FlyteContext) : result (value * FlyteContext) :=
  if bool_decide (0 < length args) then
    Err (AssertionError "Only Keyword Arguments are supported for Workflow executions")
  else
    match compilation_state ctx with
    | Some _ => _create_and_link_node self ctx kw
    | None =>
        if is_local_workflow_execution ctx then _local_execute self ctx kw
        else
          _ ← check_native_kwargs self kw;
          '(result_, ctx') ←
             _local_execute self (new_execution_context LOCAL_WORKFLOW_EXECUTION ctx) kw;
          v ← native_result self ctx' result_;
          Ok (v, ctx)
    end.

(** [ctx.registration_settings]: the property of the context, which lives
    in context_manager.py, outside this file.  It hands out the active
    registration settings and raises when none are active. *)
Definition current_registration_settings (ctx : FlyteContext)
  : result RegistrationSettings :=
  match registration_settings ctx with
  | Some s => Ok s
  | None => Err no_registration_settings
  end.

Definition get_registerable_entity (self : Workflow) (ctx : FlyteContext)
  : result (SdkWorkflow * Workflow) :=
  (* the settings are read before the cache is looked at *)
  settings ← current_registration_settings ctx;
  match _registerable_entity self with
  | Some e => Ok (e, self)
  | None =>
      let workflow_id :=
        mkIdentifier WORKFLOW (_project settings) (_domain settings) (_name self)
                     (_version settings) in
      ns ← match _nodes self with
           | Some ns => Ok ns
           | None => Err (TypeError "'NoneType' object is not iterable")
           end;
      sdk_nodes ← mapM (node_get_registerable_entity ctx) ns;
      let e := mkSdkWorkflow sdk_nodes workflow_id (_interface self) (_output_bindings self) in
      let e := mkSdkWorkflow (sw_nodes e)
                 (mkIdentifier (id_resource_type (sw_id e)) (_project settings)
                               (_domain settings) (_name self) (_version settings))
                 (sw_interface e) (sw_output_bindings e) in
      Ok (e, set_registerable_entity e self)
  end.

(** [Workflow.__init__]: nothing is compiled and nothing is cached.  The
    native interface is what [transform_signature_to_interface] made of the
    signature of the function. *)
Definition __init__ (name : string) (workflow_function : workflow_body)
    (native_interface : Interface) : Workflow :=
  mkWorkflow name workflow_function native_interface
             (transform_interface_to_typed_interface native_interface)
             None None None None.

End workflow.

(** Two workflow objects made from the same function definition: the same
    name, body and interfaces, whatever their compiled state and cache. *)
Definition same_definition (a b : Workflow) : Prop :=
  _name a = _name b ∧ _workflow_function a = _workflow_function b ∧
  _native_interface a = _native_interface b ∧ _interface a = _interface b.

(** The node an argument value refers to, if it is a promise that refers
    to one. *)
Definition referenced_node (v : value) : option Node :=
  match v with
  | VPromise p => sdk_node <$> ref p
  | _ => None
  end.

(** Keys in the order of [sorted]. *)
Definition key_le {A} (key : A → string) (x y : A) : Prop :=
  String.leb (key x) (key y) = true.

(** Every supplied argument of a declared input can be turned into a
    binding: both interfaces know the input and the binding helper accepts
    the value. *)
Definition inputs_bindable `{Collaborators} (self : Workflow) (ctx : FlyteContext)
    (kw : kwargs) : Prop :=
  ∀ k v, k ∈ keys (inputs (interface self)) → dict_get k kw = Some v →
    ∃ var t b, dict_get k (inputs (interface self)) = Some var ∧
               dict_get k (inputs (_native_interface self)) = Some t ∧
               binding_from_python_std ctx k (var_type var) v t = Ok b.

(** The upstream list of every linked node read as a set: no node twice. *)
Definition upstream_is_duplicate_free : Prop :=
  ∀ (C : Collaborators) self ctx kw cs v ctx' node,
    compilation_state ctx = Some cs →
    @_create_and_link_node C self ctx kw = Ok (v, ctx') →
    compilation_state ctx' = Some (mkCompilationState (nodes cs ++ [node])) →
    NoDup (node_upstream_nodes node).

(** [v] is what a top-level call hands back for the result [result_] of the
    local execution: nothing for nothing, the native value of the one
    promise, or the tuple of the native values of all the promises, each
    converted at the declared type of its output. *)
Definition converted_back `{Collaborators} (self : Workflow) (ctx : FlyteContext)
    (result_ v : value) : Prop :=
  (result_ = VNone ∧ v = VNone) ∨
  (∃ p k t n, result_ = VPromise p ∧
              head (outputs (_native_interface self)) = Some (k, t) ∧
              to_python_value ctx (val p) t = Ok n ∧ v = VNative n) ∨
  (∃ ps ns, result_ = VTuple (VPromise <$> ps) ∧
            Forall2 (λ p n, ∃ t,
                       dict_get (p_var p) (outputs (_native_interface self)) = Some t ∧
                       to_python_value ctx (val p) t = Ok n) ps ns ∧
            v = VTuple (VNative <$> ns)).

(** An undeclared keyword always ends a linked call in the too-many-inputs
    assertion. *)
Definition undeclared_name_raises_too_many_inputs : Prop :=
  ∀ (C : Collaborators) self ctx kw,
    (∃ k, k ∈ keys kw ∧ k ∉ keys (inputs (interface self))) →
    ∃ extra_inputs,
      @_create_and_link_node C self ctx kw
        = Err (FlyteAssertion (TooManyInputs extra_inputs)).

(** ** A concrete set of collaborators and concrete workflows

    Used to run the functions above on explicit inputs. *)
Module Sample.

Fixpoint literal_type_of (t : PyType) : LiteralType :=
  match t with
  | T_int => LT_integer
  | T_float => LT_float
  | T_str => LT_string
  | T_bool => LT_boolean
  | T_list t' => LT_collection (literal_type_of t')
  end.

Definition native_to_literal (v : value) (t : PyType) : result Literal :=
  match v, t with
  | VNative (NInt z), T_int => Ok (Lit_integer z)
  | VNative (NStr s), T_str => Ok (Lit_string s)
  | VNative (NBool b), T_bool => Ok (Lit_boolean b)
  | _, _ => Err (TypeError "value does not have the declared type")
  end.

Definition literal_to_native (l : option Literal) (t : PyType) : result native :=
  match l, t with
  | Some (Lit_integer z), T_int => Ok (NInt z)
  | Some (Lit_string s), T_str => Ok (NStr s)
  | Some (Lit_boolean b), T_bool => Ok (NBool b)
  | _, _ => Err (TypeError "literal does not have the declared type")
  end.

(** A reference to a node output binds to that output, a ready promise to
    its literal, a native value to its converted literal. *)
Definition binding_of (k : string) (v : value) (t : PyType) : result Binding :=
  match v with
  | VPromise p =>
      match p_payload p with
      | Ref o => Ok (mkBinding k (BD_promise (node_id (sdk_node o)) (no_var o)))
      | Ready l => Ok (mkBinding k (BD_scalar l))
      end
  | VOutputReference n x => Ok (mkBinding k (BD_promise n x))
  | _ => l ← native_to_literal v t; Ok (mkBinding k (BD_scalar l))
  end.

Definition typed (i : Interface) : TypedInterface :=
  mkInterface (prod_map id (λ t, mkVariable (literal_type_of t) "") <$> inputs i)
              (prod_map id (λ t, mkVariable (literal_type_of t) "") <$> outputs i).

Definition collaborators : Collaborators := {|
  GLOBAL_INPUT_NODE_ID := "";
  binding_from_python_std := λ _ k _ v t, binding_of k v t;
  to_literal := λ _ v t _, native_to_literal v t;
  to_python_value := λ _ l t, literal_to_native l t;
  transform_interface_to_typed_interface := typed;
  transform_inputs_to_parameters := λ i, inputs (typed i);
  node_get_registerable_entity := λ _ n,
    Ok (mkSdkNode (node_id n) (node_id <$> node_upstream_nodes n) (node_bindings n));
  no_registration_settings := Exception "No registration_settings initialized"
|}.

(** Another exporter, which always fails. *)
Definition broken_exporter : Collaborators := {|
  GLOBAL_INPUT_NODE_ID := "";
  binding_from_python_std := λ _ k _ v t, binding_of k v t;
  to_literal := λ _ v t _, native_to_literal v t;
  to_python_value := λ _ l t, literal_to_native l t;
  transform_interface_to_typed_interface := typed;
  transform_inputs_to_parameters := λ i, inputs (typed i);
  node_get_registerable_entity := λ _ _, Err (Exception "no export");
  no_registration_settings := Exception "No registration_settings initialized"
|}.

Definition top_level : FlyteContext := mkFlyteContext None None None.

Definition settings_v1 : RegistrationSettings := mkRegistrationSettings "proj" "dom" "1".
Definition settings_v2 : RegistrationSettings := mkRegistrationSettings "other" "prod" "2".

Definition registering (s : RegistrationSettings) : FlyteContext :=
  mkFlyteContext None None (Some s).

(** [def add(b: int, a: int) -> int]: a workflow that hands back its
    argument [a]. *)
Definition add : Workflow :=
  @__init__ collaborators "m.add"
    (λ kw ctx, v ← dict_item "a" kw; Ok (v, ctx))
    (mkInterface [("b", T_int); ("a", T_int)] [("o0", T_int)]).

(** [def pair(n: int) -> (int, int)]: returns its argument twice. *)
Definition pair : Workflow :=
  @__init__ collaborators "m.pair"
    (λ kw ctx, v ← dict_item "n" kw; Ok (VTuple [v; v], ctx))
    (mkInterface [("n", T_int)] [("o0", T_int); ("o1", T_int)]).

(** [def main(n: int) -> int: return add(a=n, b=5)]. *)
Definition main : Workflow :=
  @__init__ collaborators "m.main"
    (λ kw ctx,
       n ← dict_item "n" kw;
       @__call__ collaborators add [] [("a", n); ("b", VNative (NInt 5))] ctx)
    (mkInterface [("n", T_int)] [("o0", T_int)]).

(** [def both(n: int) -> (int, int): x, y = pair(n=n); return add(a=x, b=y), y]. *)
Definition both : Workflow :=
  @__init__ collaborators "m.both"
    (λ kw ctx,
       n ← dict_item "n" kw;
       '(xy, ctx) ← @__call__ collaborators pair [] [("n", n)] ctx;
       match xy with
       | VTuple [x; y] =>
           '(s, ctx) ← @__call__ collaborators add [] [("a", x); ("b", y)] ctx;
           Ok (VTuple [s; y], ctx)
       | _ => Err (TypeError "cannot unpack")
       end)
    (mkInterface [("n", T_int)] [("o0", T_int); ("o1", T_int)]).

(** [def noop(): return 5], a workflow declaring no outputs. *)
Definition noop : Workflow :=
  mkWorkflow "m.noop" (λ _ ctx, Ok (VNative (NInt 5), ctx))
             (mkInterface [] []) (mkInterface [] []) None None None None.

(** A workflow declaring one output whose body returns a conditional
    without its [else_()] arm, and one declaring two outputs. *)
Definition open_branch : Workflow :=
  mkWorkflow "m.open_branch" (λ _ ctx, Ok (VConditionalSection, ctx))
             (mkInterface [] [("o0", T_int)])
             (mkInterface [] [("o0", mkVariable LT_integer "")])
             None None None None.

Definition open_branches : Workflow :=
  mkWorkflow "m.open_branches"
             (λ _ ctx, Ok (VTuple [VConditionalSection; VNative (NInt 1)], ctx))
             (mkInterface [] [("o0", T_int); ("o1", T_int)])
             (mkInterface [] [("o0", mkVariable LT_integer ""); ("o1", mkVariable LT_integer "")])
             None None None None.

(** What tracing [both] records: the node of [pair], then the node of
    [add], whose two inputs both come from the node of [pair]. *)
Definition node_pair : Node :=
  mkNode "node-0" (mkNodeMetadata "m.pair" 0 0)
         [mkBinding "n" (BD_promise "" "n")] [] "m.pair".

Definition node_add : Node :=
  mkNode "node-1" (mkNodeMetadata "m.add" 0 0)
         [mkBinding "a" (BD_promise "node-0" "o0");
          mkBinding "b" (BD_promise "node-0" "o1")]
         [node_pair; node_pair] "m.add".

Definition both_bindings : list Binding :=
  [mkBinding "o0" (BD_promise "node-1" "o0");
   mkBinding "o1" (BD_promise "node-0" "o1")].

Definition both_compiled : Workflow :=
  set_compiled [node_pair; node_add] both_bindings
    (set_input_parameters [("n", mkVariable LT_integer "")] both).

(** The two outputs of [node_pair] as promises, and a tracing context that
    already holds that node. *)
Definition pair_o0 : value := VPromise (mkPromise "o0" (Ref (mkNodeOutput node_pair "o0"))).
Definition pair_o1 : value := VPromise (mkPromise "o1" (Ref (mkNodeOutput node_pair "o1"))).

Definition tracing : FlyteContext :=
  mkFlyteContext (Some (mkCompilationState [node_pair])) None None.

End Sample.

(** ** The [workflow] decorator *)

(** A host function as the decorator sees it: module and name, the
    interface that [transform_signature_to_interface] makes of its
    signature, and its body. *)
Record PyFunction : Type := mkPyFunction {
  fn_module : string;
  fn_name : string;
  fn_signature : Interface;
  fn_body : workflow_body
}.

(** [Workflow(fn)]. *)
Definition Workflow_of `{Collaborators} (fn : PyFunction) : Workflow :=
  __init__ (fn_module fn +:+ "." +:+ fn_name fn) (fn_body fn) (fn_signature fn).

(** The inner [wrapper] of the decorator: make the workflow object, compile
    it with no overrides, and attach the identifier as attribute [id]. *)
Definition wrapper `{Collaborators} (fn : PyFunction) (ctx : FlyteContext)
  : result (Workflow * Identifier) :=
  let workflow_id := mkIdentifier WORKFLOW "proj" "dom" "moreblah" "1" in
  let workflow_instance := Workflow_of fn in
  '(_, workflow_instance) ← compile workflow_instance [] ctx;
  Ok (workflow_instance, workflow_id).

(** [workflow(_workflow_function)]: the decorated function at once, or the
    wrapper when used with parentheses. *)
Definition workflow_decorator `{Collaborators} (_workflow_function : option PyFunction)
    (ctx : FlyteContext)
  : result (Workflow * Identifier) + (PyFunction → result (Workflow * Identifier)) :=
  match _workflow_function with
  | Some fn => inl (wrapper fn ctx)
  | None => inr (λ fn, wrapper fn ctx)
  end.

(** Node identifiers follow the trace: the node at position [i] of a node
    list is ["node-<i>"]. *)
Definition ids_in_trace_order (ns : list Node) : Prop :=
  ∀ i n, ns !! i = Some n → node_id n = "node-" +:+ pretty i.

(** Every promise among the values refers to a node output. *)
Definition promises_refer (vs : list value) : Prop :=
  Forall (λ v, ∀ p, v = VPromise p → is_Some (ref p)) vs.

(** How [_workflow_fn_outputs_to_promise] recasts one returned value under
    the output name [k] of declared type [t]: a promise stays the promise
    it is and takes the name, anything else becomes a promise of that name
    holding its literal. *)
Definition recast `{Collaborators} (ctx : FlyteContext) (typed_outputs : dict VariableModel)
    (k : string) (t : PyType) (v : value) (p : Promise) : Prop :=
  p_var p = k ∧
  ((∃ q, v = VPromise q ∧ p = with_var k q) ∨
   ((∀ q, v ≠ VPromise q) ∧
    ∃ var l, dict_get k typed_outputs = Some var ∧
             to_literal ctx v t (var_type var) = Ok l ∧
             p = mkPromise k (Ready l))).

(** A function for the decorator: [def main(n: int) -> int: return add(a=n, b=5)]
    in module [m]. *)
Definition sample_main_fn : PyFunction :=
  mkPyFunction "m" "main"
    (mkInterface [("n", T_int)] [("o0", T_int)])
    (λ kw ctx,
       n ← dict_item "n" kw;
       @__call__ Sample.collaborators Sample.add []
          [("a", n); ("b", VNative (NInt 5))] ctx).

Definition sample_node_main_add : Node :=
  mkNode "node-0" (mkNodeMetadata "m.add" 0 0)
         [mkBinding "a" (BD_promise "" "n"); mkBinding "b" (BD_scalar (Lit_integer 5))]
         [] "m.add".

Definition sample_main_compiled : Workflow :=
  set_compiled [sample_node_main_add] [mkBinding "o0" (BD_promise "node-0" "o0")]
    (set_input_parameters [("n", mkVariable LT_integer "")]
       (@Workflow_of Sample.collaborators sample_main_fn)).

(** [def two_for_one() -> int: return 1, 2]: one declared output, a tuple of
    two returned. *)
Definition sample_two_for_one : Workflow :=
  mkWorkflow "m.two_for_one"
             (λ _ ctx, Ok (VTuple [VNative (NInt 1); VNative (NInt 2)], ctx))
             (mkInterface [] [("o0", T_int)])
             (mkInterface [] [("o0", mkVariable LT_integer "")])
             None None None None.

(** * Properties *)

(** ** The error monad *)

Lemma bind_Ok {A B} (m : result A) (f : A → result B) b :
  m ≫= f = Ok b ↔ ∃ a, m = Ok a ∧ f a = Ok b.
Proof.
  destruct m as [a|e]; simpl; split.
  - eauto.
  - by intros (a' & [= ->] & ?).
  - done.
  - by intros (? & ? & ?).
Qed.

Lemma fmap_Ok {A B} (m : result A) (f : A → B) b :
  f <$> m = Ok b ↔ ∃ a, m = Ok a ∧ b = f a.
Proof.
  destruct m as [a|e]; simpl; split.
  - intros [= <-]. eauto.
  - by intros (a' & [= ->] & ->).
  - done.
  - by intros (? & ? & ?).
Qed.

Lemma dict_item_Ok {V} k (d : dict V) v :
  dict_item k d = Ok v ↔ dict_get k d = Some v.
Proof. unfold dict_item. destruct (dict_get k d); split; congruence. Qed.

Ltac inv_result H :=
  lazymatch type of H with
  | _ ≫= _ = Ok _ =>
      let a := fresh "a" in let Ha := fresh "Ha" in
      apply bind_Ok in H; destruct H as (a & Ha & H);
      inv_result Ha; inv_result H
  | _ <$> _ = Ok _ =>
      let a := fresh "a" in let Ha := fresh "Ha" in
      apply fmap_Ok in H; destruct H as (a & Ha & H);
      inv_result Ha
  | dict_item _ _ = Ok _ => apply dict_item_Ok in H
  | Ok _ = Ok _ => injection H as H
  | Err _ = Ok _ => discriminate H
  | (if ?b then _ else _) = Ok _ => destruct b eqn:?; inv_result H
  | match ?p with _ => _ end = Ok _ => destruct p eqn:?; inv_result H
  | _ => idtac
  end.

Section facts.
Context `{Collaborators}.

Lemma bind_outputs_spec self ctx items bs :
  bind_outputs self ctx items = Ok bs →
  Forall2 (λ ov b, ∃ t var,
             ov.2 ≠ VConditionalSection ∧
             dict_get ov.1 (outputs (_native_interface self)) = Some t ∧
             dict_get ov.1 (outputs (interface self)) = Some var ∧
             binding_from_python_std ctx ov.1 (var_type var) ov.2 t = Ok b)
          items bs.
Proof.
  revert bs. induction items as [|[out v] items IH]; intros bs Hbs; simpl in Hbs.
  - inv_result Hbs. subst. constructor.
  - inv_result Hbs; subst; (constructor; [|by apply IH]).
    all: simpl.
    all: try (eexists _, _; split_and!; eauto; done).
Qed.


Lemma bind_outputs_ext a b ctx items :
  same_definition a b → bind_outputs a ctx items = bind_outputs b ctx items.
Proof.
  intros (_ & _ & Hn & Hi). induction items as [|[out v] items IH]; [done|].
  simpl. unfold interface. by rewrite Hn, Hi, IH.
Qed.

Lemma bind_workflow_outputs_ext a b ctx wo :
  same_definition a b → bind_workflow_outputs a ctx wo = bind_workflow_outputs b ctx wo.
Proof.
  intros Hab. pose proof (bind_outputs_ext a b ctx) as Hext.
  destruct Hab as (Hname & Hf & Hn & Hi).
  unfold bind_workflow_outputs, interface. rewrite Hn, Hi.
  destruct (keys (outputs (_interface b))) as [|? [|? ?]]; try done.
  destruct wo; try done. case_bool_decide; [done|]. by apply Hext.
Qed.

Lemma length_keys {V} (d : dict V) : length (keys d) = length d.
Proof. apply length_fmap. Qed.

Lemma bind_workflow_outputs_spec self ctx wo bs :
  bind_workflow_outputs self ctx wo = Ok bs →
  Forall2 (λ out b, ∃ v t var,
             dict_get out (outputs (_native_interface self)) = Some t ∧
             dict_get out (outputs (interface self)) = Some var ∧
             binding_from_python_std ctx out (var_type var) v t = Ok b)
          (keys (outputs (interface self))) bs.
Proof.
  unfold bind_workflow_outputs.
  destruct (keys (outputs (interface self))) as [|out [|out' names]] eqn:Hk; intros Hb.
  - inv_result Hb. subst. constructor.
  - inv_result Hb; subst; repeat constructor; eauto 10.
  - destruct wo; try discriminate. inv_result Hb.
    apply bind_outputs_spec in Hb.
    apply bool_decide_eq_false in Heqb. apply dec_stable in Heqb.
    rewrite <-(fst_zip (out :: out' :: names) vs) by lia.
    apply Forall2_fmap_l. eapply Forall2_impl; [done|].
    simpl. intros [o v] b (t & var & _ & ? & ? & ?); simpl in *. eauto 10.
Qed.

Lemma compile_inv self kw ctx r self' :
  compile self kw ctx = Ok (r, self') →
  ∃ wo cctx cs bs,
    _workflow_function self (dict_update (_construct_input_promises self) kw)
                       (new_compilation_context ctx) = Ok (wo, cctx) ∧
    compilation_state cctx = Some cs ∧
    bind_workflow_outputs self ctx wo = Ok bs ∧
    self' = set_compiled (nodes cs) bs
              (set_input_parameters
                 (transform_inputs_to_parameters (_native_interface self)) self) ∧
    r = match keys (outputs (interface self)) with
        | [] => CR_None
        | [_] => match bs with b :: _ => CR_Binding b | [] => CR_None end
        | _ => CR_Tuple bs
        end.
Proof.
  unfold compile. intros Hc. apply bind_Ok in Hc as ([wo cctx] & Hbody & Hc).
  simpl in Hbody. apply bind_Ok in Hc as (ns & Hns & Hc).
  apply bind_Ok in Hc as (bs & Hbs & Hc).
  erewrite bind_workflow_outputs_ext in Hbs; last first.
  { instantiate (1 := self). done. }
  destruct (compilation_state cctx) as [cs|] eqn:Hcs; [|done]. injection Hns as <-.
  exists wo, cctx, cs, bs. split_and!; try done.
  - simpl in Hc. unfold interface in *.
    destruct (keys (outputs (_interface self))) as [|? [|? ?]]; [|destruct bs|]; congruence.
  - simpl in Hc. unfold interface in *.
    destruct (keys (outputs (_interface self))) as [|? [|? ?]]; [|destruct bs|]; congruence.
Qed.

(** C9. A successful [compile] returns [None] when no output is declared,
    the one output binding when exactly one is declared, and otherwise the
    tuple of the output bindings, one per declared output and in declared
    order; the same bindings are stored on the workflow. *)
Theorem compile_return_shape self kw ctx r self' :
  compile self kw ctx = Ok (r, self') →
  ∃ bs,
    _output_bindings self' = Some bs ∧
    Forall2 (λ out b, ∃ v t var,
               dict_get out (outputs (_native_interface self)) = Some t ∧
               dict_get out (outputs (interface self)) = Some var ∧
               binding_from_python_std ctx out (var_type var) v t = Ok b)
            (keys (outputs (interface self))) bs ∧
    (length (outputs (interface self)) = 0 → r = CR_None) ∧
    (length (outputs (interface self)) = 1 → ∃ b, bs = [b] ∧ r = CR_Binding b) ∧
    (1 < length (outputs (interface self)) → r = CR_Tuple bs).
Proof.
  intros (wo & cctx & cs & bs & _ & _ & Hbs & -> & ->)%compile_inv.
  apply bind_workflow_outputs_spec in Hbs.
  exists bs. split; [done|]. split; [done|].
  rewrite <-(length_keys (outputs (interface self))).
  destruct Hbs as [|out b names bs' _ Hrest]; simpl.
  - split_and!; [done|lia|lia].
  - destruct Hrest; simpl; split_and!; try lia; eauto.
Qed.

Lemma compile_intro self kw ctx wo cctx cs bs :
  _workflow_function self (dict_update (_construct_input_promises self) kw)
                     (new_compilation_context ctx) = Ok (wo, cctx) →
  compilation_state cctx = Some cs →
  bind_workflow_outputs self ctx wo = Ok bs →
  compile self kw ctx =
    Ok (match keys (outputs (interface self)) with
        | [] => CR_None
        | [_] => match bs with b :: _ => CR_Binding b | [] => CR_None end
        | _ => CR_Tuple bs
        end,
        set_compiled (nodes cs) bs
          (set_input_parameters
             (transform_inputs_to_parameters (_native_interface self)) self)).
Proof.
  intros Hbody Hcs Hbs. pose proof (bind_workflow_outputs_spec _ _ _ _ Hbs) as Hshape.
  unfold compile, _construct_input_promises, interface in *. simpl.
  rewrite Hbody. simpl. rewrite Hcs. simpl.
  erewrite (bind_workflow_outputs_ext _ self); [|done].
  rewrite Hbs. simpl.
  destruct Hshape as [|? ? ? ? _ [|]]; done.
Qed.

Lemma same_definition_compiled ns bs ps self :
  same_definition self (set_compiled ns bs (set_input_parameters ps self)).
Proof. done. Qed.

(** C3. Compiling again gives the same result: on the same workflow object
    the second [compile] returns the same value and leaves the object as
    the first left it, and on any other object made from the same
    definition it returns the same value, the same nodes (identifiers,
    upstream lists, bindings) and the same output bindings. *)
Theorem compile_idempotent self kw ctx r self1 :
  compile self kw ctx = Ok (r, self1) →
  compile self1 kw ctx = Ok (r, self1) ∧
  ∀ fresh, same_definition self fresh →
    ∃ fresh1, compile fresh kw ctx = Ok (r, fresh1) ∧
              _nodes fresh1 = _nodes self1 ∧
              _output_bindings fresh1 = _output_bindings self1.
Proof.
  intros (wo & cctx & cs & bs & Hbody & Hcs & Hbs & -> & ->)%compile_inv.
  assert (∀ other, same_definition self other →
    compile other kw ctx =
      Ok (match keys (outputs (interface self)) with
          | [] => CR_None
          | [_] => match bs with b :: _ => CR_Binding b | [] => CR_None end
          | _ => CR_Tuple bs
          end,
          set_compiled (nodes cs) bs
            (set_input_parameters
               (transform_inputs_to_parameters (_native_interface other)) other)))
    as Hother.
  { intros other Hso. pose proof Hso as (Hname & Hf & Hn & Hi).
    erewrite (compile_intro other kw ctx wo cctx cs bs); try done.
    - unfold interface. by rewrite Hi.
    - unfold _construct_input_promises, interface. by rewrite <-Hf, <-Hi.
    - by rewrite <-(bind_workflow_outputs_ext self other). }
  split.
  - rewrite Hother by apply same_definition_compiled. done.
  - intros fresh Hfresh. eexists. split; [by apply Hother|]. done.
Qed.

End facts.

(** ** Output arity and unresolved branches in [compile] *)

Section outputs.
Context `{Collaborators}.

(** With no declared output [compile] never looks at what the body
    returned. *)
Lemma compile_no_outputs self kw ctx wo cctx cs :
  keys (outputs (interface self)) = [] →
  _workflow_function self (dict_update (_construct_input_promises self) kw)
                     (new_compilation_context ctx) = Ok (wo, cctx) →
  compilation_state cctx = Some cs →
  compile self kw ctx =
    Ok (CR_None,
        set_compiled (nodes cs) []
          (set_input_parameters
             (transform_inputs_to_parameters (_native_interface self)) self)).
Proof.
  intros Hk Hbody Hcs.
  assert (bind_workflow_outputs self ctx wo = Ok []) as Hbs.
  { unfold bind_workflow_outputs. by rewrite Hk. }
  rewrite (compile_intro self kw ctx wo cctx cs []) by done. by rewrite Hk.
Qed.

(** With one declared output an aggregate of another length than one is
    refused; anything else goes to the binding helper as it is. *)
Lemma bind_single_output self ctx out wo :
  keys (outputs (interface self)) = [out] →
  bind_workflow_outputs self ctx wo =
    match wo with
    | VTuple vs =>
        if bool_decide (length vs = 1) then
          t ← dict_item out (outputs (_native_interface self));
          var ← dict_item out (outputs (interface self));
          b ← binding_from_python_std ctx out (var_type var) wo t;
          Ok [b]
        else
          Err (AssertionError
                 ("The Workflow specification indicates only one return value, received "
                  +:+ pretty (length vs)))
    | _ =>
        t ← dict_item out (outputs (_native_interface self));
        var ← dict_item out (outputs (interface self));
        b ← binding_from_python_std ctx out (var_type var) wo t;
        Ok [b]
    end.
Proof.
  intros Hk. unfold bind_workflow_outputs. rewrite Hk.
  destruct wo; try done.
  repeat case_bool_decide; done.
Qed.

(** With several declared outputs only a tuple of exactly that length gets
    as far as the binding loop. *)
Lemma bind_many_outputs self ctx wo bs :
  1 < length (outputs (interface self)) →
  bind_workflow_outputs self ctx wo = Ok bs →
  ∃ vs, wo = VTuple vs ∧ length vs = length (outputs (interface self)) ∧
        Forall (λ v, v ≠ VConditionalSection) vs.
Proof.
  rewrite <-length_keys. unfold bind_workflow_outputs.
  destruct (keys (outputs (interface self))) as [|out [|out' names]] eqn:Hk;
    simpl; [lia|lia|].
  intros _ Hb. destruct wo; try discriminate. inv_result Hb.
  apply bool_decide_eq_false in Heqb. apply dec_stable in Heqb.
  exists vs. split; [done|]. split; [done|].
  apply bind_outputs_spec in Hb.
  apply Forall_forall. intros v Hv.
  apply list_elem_of_lookup in Hv as [i Hi].
  destruct (lookup_lt_is_Some_2 (out :: out' :: names) i) as [o Ho].
  { pose proof (lookup_lt_Some _ _ _ Hi). simpl in *. lia. }
  assert (zip (out :: out' :: names) vs !! i = Some (o, v)) as Hz.
  { apply lookup_zip_with_Some. eauto. }
  destruct (Forall2_lookup_l _ _ _ _ _ Hb Hz) as (b & _ & (t & var & Hne & _)).
  done.
Qed.

(** An unresolved branch among several declared outputs makes [compile]
    fail. *)
Lemma compile_many_outputs_conditional self kw ctx vs wo cctx :
  1 < length (outputs (interface self)) →
  _workflow_function self (dict_update (_construct_input_promises self) kw)
                     (new_compilation_context ctx) = Ok (wo, cctx) →
  wo = VTuple vs → VConditionalSection ∈ vs →
  is_Err (compile self kw ctx).
Proof.
  intros Hlen Hbody -> Hin.
  destruct (compile self kw ctx) as [[r self']|e] eqn:Hc; [|by eexists].
  apply compile_inv in Hc as (wo & cctx' & cs & bs & Hbody' & _ & Hbs & _).
  rewrite Hbody in Hbody'. injection Hbody' as <- <-.
  apply bind_many_outputs in Hbs as (vs' & [= <-] & _ & Hall); [|done].
  by eapply Forall_forall in Hall.
Qed.

End outputs.

(** C1. The arity law fails for a workflow declaring no outputs: [compile]
    of [noop], whose body returns [5], succeeds and returns [None], with no
    nodes and no bindings, for any collaborators and in any context.  The
    local-execution path refuses the same return value. *)
Theorem compile_zero_outputs_ignores_return `{Collaborators} ctx :
  compile Sample.noop [] ctx =
    Ok (CR_None,
        set_compiled [] []
          (set_input_parameters
             (transform_inputs_to_parameters (_native_interface Sample.noop))
             Sample.noop)) ∧
  _workflow_fn_outputs_to_promise ctx
      (outputs (_native_interface Sample.noop)) (outputs (interface Sample.noop))
      (VNative (NInt 5)) =
    Err (AssertionError "something returned from wf but shouldn't have outputs").
Proof. split; reflexivity. Qed.

(** C5. With exactly one declared output [compile] has no check for an
    unresolved branch: for [open_branch], whose body returns a conditional
    without its else arm, the outcome of [compile] is the outcome of the
    binding helper on that conditional, a success whenever the helper
    accepts it.  With two declared outputs the same value is refused by
    [compile] itself. *)
Theorem compile_single_output_keeps_open_branch `{Collaborators} ctx :
  compile Sample.open_branch [] ctx =
    (b ← binding_from_python_std ctx "o0" LT_integer VConditionalSection T_int;
     Ok (CR_Binding b,
         set_compiled [] [b]
           (set_input_parameters
              (transform_inputs_to_parameters (_native_interface Sample.open_branch))
              Sample.open_branch))) ∧
  compile Sample.open_branches [] ctx =
    Err (AssertionError
           "A Conditional block (if-else) should always end with an `else_()` clause").
Proof.
  split; [|reflexivity].
  unfold compile, bind_workflow_outputs. simpl.
  by destruct (binding_from_python_std ctx "o0" LT_integer VConditionalSection T_int).
Qed.

(** ** The export cache *)

Lemma get_registerable_entity_cached `{Collaborators} self ctx e :
  _registerable_entity self = Some e →
  get_registerable_entity self ctx =
    match registration_settings ctx with
    | Some _ => Ok (e, self)
    | None => Err no_registration_settings
    end.
Proof.
  intros Hcache. unfold get_registerable_entity, current_registration_settings.
  destruct (registration_settings ctx); simpl; [|done]. by rewrite Hcache.
Qed.

Lemma get_registerable_entity_fills_cache `{Collaborators} self ctx e self1 :
  get_registerable_entity self ctx = Ok (e, self1) →
  _registerable_entity self1 = Some e.
Proof.
  unfold get_registerable_entity. intros Hg.
  apply bind_Ok in Hg as (s & _ & Hg).
  destruct (_registerable_entity self) as [e0|] eqn:Hcache.
  - by injection Hg as <- <-.
  - inv_result Hg. by subst.
Qed.



Lemma compile_return_shape_witness :
  @compile Sample.collaborators Sample.both [] Sample.top_level
    = Ok (CR_Tuple Sample.both_bindings, Sample.both_compiled) ∧
  ∃ bs,
    _output_bindings Sample.both_compiled = Some bs ∧
    Forall2 (λ out b, ∃ v t var,
               dict_get out (outputs (_native_interface Sample.both)) = Some t ∧
               dict_get out (outputs (interface Sample.both)) = Some var ∧
               @binding_from_python_std Sample.collaborators Sample.top_level
                  out (var_type var) v t = Ok b)
            (keys (outputs (interface Sample.both))) bs ∧
    (length (outputs (interface Sample.both)) = 0 → CR_Tuple Sample.both_bindings = CR_None) ∧
    (length (outputs (interface Sample.both)) = 1 →
       ∃ b, bs = [b] ∧ CR_Tuple Sample.both_bindings = CR_Binding b) ∧
    (1 < length (outputs (interface Sample.both)) →
       CR_Tuple Sample.both_bindings = CR_Tuple bs).
Proof.
  assert (@compile Sample.collaborators Sample.both [] Sample.top_level
            = Ok (CR_Tuple Sample.both_bindings, Sample.both_compiled)) as Hc
    by reflexivity.
  split; [exact Hc|].
  exact (@compile_return_shape Sample.collaborators _ _ _ _ _ Hc).
Defined.

Lemma compile_idempotent_witness :
  @compile Sample.collaborators Sample.both [] Sample.top_level
    = Ok (CR_Tuple Sample.both_bindings, Sample.both_compiled) ∧
  @compile Sample.collaborators Sample.both_compiled [] Sample.top_level
    = Ok (CR_Tuple Sample.both_bindings, Sample.both_compiled).
Proof.
  assert (@compile Sample.collaborators Sample.both [] Sample.top_level
            = Ok (CR_Tuple Sample.both_bindings, Sample.both_compiled)) as Hc
    by reflexivity.
  split; [exact Hc|].
  exact (proj1 (@compile_idempotent Sample.collaborators _ _ _ _ _ Hc)).
Defined.

(** ** Sorting *)

Section sorting.
Context {A : Type} (key : A → string).

Lemma insert_by_Permutation x l : insert_by key x l ≡ₚ x :: l.
Proof.
  induction l as [|y l IH]; simpl; [done|].
  destruct (String.leb (key x) (key y)); [done|].
  rewrite IH. apply Permutation_swap.
Qed.

Lemma sorted_Permutation l : sorted key l ≡ₚ l.
Proof.
  induction l as [|x l IH]; simpl; [done|].
  by rewrite insert_by_Permutation, IH.
Qed.

Lemma insert_by_Sorted x l :
  Sorted (key_le key) l → Sorted (key_le key) (insert_by key x l).
Proof.
  induction 1 as [|y l Hl IH Hy]; simpl.
  - by repeat constructor.
  - destruct (String.leb (key x) (key y)) eqn:Hxy.
    + by repeat constructor.
    + constructor; [done|].
      assert (key_le key y x) as Hyx.
      { unfold key_le. destruct (String.leb_total (key x) (key y)); congruence. }
      destruct Hy as [|z l Hz]; simpl; [by constructor|].
      destruct (String.leb (key x) (key z)); by constructor.
Qed.

Lemma sorted_Sorted l : Sorted (key_le key) (sorted key l).
Proof.
  induction l as [|x l IH]; simpl; [constructor|]. by apply insert_by_Sorted.
Qed.

Lemma sorted_of_Sorted l : Sorted (key_le key) l → sorted key l = l.
Proof.
  induction 1 as [|x l Hl IH Hx]; simpl; [done|].
  rewrite IH. destruct Hx as [|y l Hxy]; simpl; [done|].
  unfold key_le in Hxy. by rewrite Hxy.
Qed.

End sorting.

Lemma Sorted_fmap_key {A} (key : A → string) (l : list A) :
  Sorted (key_le key) l ↔ Sorted (key_le id) (key <$> l).
Proof.
  induction l as [|x l IH]; simpl.
  - split; constructor.
  - split; inversion_clear 1 as [|? ? Hl Hx]; constructor; try by apply IH.
    + destruct Hx; simpl; by constructor.
    + destruct l; simpl in *; inversion_clear Hx; by constructor.
Qed.

(** ** Dictionaries *)

Lemma dict_get_Some_elem {V} k v (d : dict V) :
  dict_get k d = Some v → (k, v) ∈ d.
Proof.
  induction d as [|[k' v'] d IH]; simpl; [done|].
  case_decide; [intros [= ->]; subst; left|right; auto].
Qed.

Lemma dict_get_is_Some {V} k (d : dict V) :
  is_Some (dict_get k d) ↔ k ∈ keys d.
Proof.
  unfold keys. induction d as [|[k' v'] d IH]; simpl.
  - split; [by intros [? ?]|by intros ?%elem_of_nil].
  - rewrite elem_of_cons. case_decide as Hk.
    + split; [by left|by eexists].
    + rewrite IH. split; [by right|]. by intros [?|?].
Qed.

Lemma dict_get_None {V} k (d : dict V) :
  dict_get k d = None ↔ k ∉ keys d.
Proof. rewrite <-dict_get_is_Some, eq_None_not_Some. done. Qed.

Lemma dict_get_elem_NoDup {V} k v (d : dict V) :
  NoDup (keys d) → (k, v) ∈ d → dict_get k d = Some v.
Proof.
  unfold keys. induction d as [|[k' v'] d IH]; simpl; [by intros _ ?%elem_of_nil|].
  intros [Hk' Hd]%NoDup_cons [[= -> ->]|Hin]%elem_of_cons.
  - by rewrite decide_True.
  - rewrite decide_False; [by apply IH|].
    intros ->. apply Hk'. apply list_elem_of_fmap. by exists (k', v).
Qed.

Lemma dict_get_Permutation {V} k (d d' : dict V) :
  NoDup (keys d) → d ≡ₚ d' → dict_get k d = dict_get k d'.
Proof.
  intros Hnd Hp.
  assert (NoDup (keys d')) as Hnd' by (unfold keys in *; by rewrite <-Hp).
  destruct (dict_get k d) as [v|] eqn:Hd.
  - symmetry. apply dict_get_elem_NoDup; [done|].
    rewrite <-Hp. by apply dict_get_Some_elem.
  - symmetry. apply dict_get_None. apply dict_get_None in Hd.
    unfold keys in *. by rewrite <-Hp.
Qed.

Lemma dict_mem_keys {V} k (d : dict V) : dict_mem k d = true ↔ k ∈ keys d.
Proof. unfold dict_mem. by rewrite bool_decide_eq_true, dict_get_is_Some. Qed.

(** ** Linking a call as a node *)

Section linking.
Context `{Collaborators}.

Lemma bind_inputs_ext a b ctx kw kw' ks bs u :
  _native_interface a = _native_interface b → _interface a = _interface b →
  (∀ k, dict_get k kw = dict_get k kw') →
  bind_inputs a ctx kw ks bs u = bind_inputs b ctx kw' ks bs u.
Proof.
  intros Hn Hi Hkw. revert bs u.
  induction ks as [|k ks IH]; intros bs u; simpl; [done|].
  unfold interface. rewrite Hn, Hi, Hkw.
  destruct (dict_item k (inputs (_interface b))) as [var|]; simpl; [|done].
  destruct (dict_get k kw'); [|done].
  destruct (dict_item k (inputs (_native_interface b))) as [t|]; simpl; [|done].
  destruct (binding_from_python_std ctx k (var_type var) v t); simpl; [|done].
  apply IH.
Qed.

(** What the loop over the declared inputs yields when it completes: one
    binding per name, in the order of the names, each made from the
    argument supplied under that name; every name was supplied. *)
Lemma bind_inputs_Ok self ctx kw ks bs0 u0 bs u :
  bind_inputs self ctx kw ks bs0 u0 = Ok (bs, u) →
  u = u0 ∪ list_to_set ks ∧
  ∃ bs1, bs = (bs0 ++ bs1)%list ∧
    Forall2 (λ k b, ∃ v var t,
               dict_get k kw = Some v ∧
               dict_get k (inputs (interface self)) = Some var ∧
               dict_get k (inputs (_native_interface self)) = Some t ∧
               binding_from_python_std ctx k (var_type var) v t = Ok b)
            ks bs1.
Proof.
  revert bs0 u0. induction ks as [|k ks IH]; intros bs0 u0 Hb; simpl in Hb.
  - injection Hb as <- <-. split; [set_solver|]. exists []. by rewrite app_nil_r.
  - apply bind_Ok in Hb as (var & Hvar%dict_item_Ok & Hb).
    destruct (dict_get k kw) as [v|] eqn:Hv; [|done].
    apply bind_Ok in Hb as (t & Ht%dict_item_Ok & Hb).
    apply bind_Ok in Hb as (b & Hbfs & Hb).
    apply IH in Hb as (-> & bs1 & -> & Hall).
    split; [set_solver|]. exists (b :: bs1). rewrite <-app_assoc. split; [done|].
    constructor; eauto 10.
Qed.

(** The first name of the loop that the call does not supply stops the
    loop with the missing-input error for that name and its declared type,
    provided the arguments before it could be bound. *)
Lemma bind_inputs_missing self ctx kw ks bs0 u0 :
  (∀ k v, k ∈ ks → dict_get k kw = Some v →
     ∃ var t b, dict_get k (inputs (interface self)) = Some var ∧
                dict_get k (inputs (_native_interface self)) = Some t ∧
                binding_from_python_std ctx k (var_type var) v t = Ok b) →
  (∀ k, k ∈ ks → k ∈ keys (inputs (interface self))) →
  (∃ k, k ∈ ks ∧ k ∉ keys kw) →
  ∃ pre k post var,
    ks = (pre ++ k :: post)%list ∧
    (∀ k', k' ∈ pre → k' ∈ keys kw) ∧
    (k ∉ keys kw) ∧
    dict_get k (inputs (interface self)) = Some var ∧
    bind_inputs self ctx kw ks bs0 u0
      = Err (FlyteAssertion (InputNotSpecified k (var_type var))).
Proof.
  unfold interface.
  revert bs0 u0. induction ks as [|k ks IH]; intros bs0 u0 Hconv Hdecl (k0 & Hk0 & Hmiss).
  { by apply elem_of_nil in Hk0. }
  simpl. unfold interface, dict_item.
  destruct (dict_get k (inputs (_interface self))) as [var|] eqn:Hvar; last first.
  { apply dict_get_None in Hvar. destruct Hvar. apply Hdecl. left. }
  simpl.
  destruct (dict_get k kw) as [v|] eqn:Hv.
  - destruct (Hconv k v) as (var' & t & b & Hvar' & Ht & Hb); [left|done|].
    rewrite Hvar in Hvar'. injection Hvar' as <-.
    rewrite Ht. simpl. rewrite Hb. simpl.
    destruct (IH ((bs0 ++ [b])%list) (u0 ∪ {[k]}))
      as (pre & k1 & post & var1 & -> & Hpre & Hm1 & Hvar1 & Heq).
    + intros k' v' Hk'. apply Hconv. by right.
    + intros k' Hk'. apply Hdecl. by right.
    + exists k0. split; [|done]. apply elem_of_cons in Hk0 as [->|]; [|done].
      apply dict_get_None in Hmiss. congruence.
    + exists (k :: pre), k1, post, var1. split; [done|]. split; [|done].
      intros k' [->|Hk']%elem_of_cons; [|by apply Hpre].
      apply dict_get_is_Some. by eexists.
  - exists [], k, ks, var. split; [done|]. split; [by intros ? ?%elem_of_nil|].
    split; [by apply dict_get_None|done].
Qed.

(** When every declared name is supplied and every argument can be bound,
    the loop completes. *)
Lemma bind_inputs_complete self ctx kw ks bs0 u0 :
  (∀ k v, k ∈ ks → dict_get k kw = Some v →
     ∃ var t b, dict_get k (inputs (interface self)) = Some var ∧
                dict_get k (inputs (_native_interface self)) = Some t ∧
                binding_from_python_std ctx k (var_type var) v t = Ok b) →
  (∀ k, k ∈ ks → k ∈ keys kw) →
  ∃ bs, bind_inputs self ctx kw ks bs0 u0 = Ok (bs, u0 ∪ list_to_set ks).
Proof.
  unfold interface.
  revert bs0 u0. induction ks as [|k ks IH]; intros bs0 u0 Hconv Hall; simpl.
  - exists bs0. f_equal. f_equal. set_solver.
  - destruct (proj2 (dict_get_is_Some k kw)) as [v Hv]; [apply Hall; left|].
    destruct (Hconv k v) as (var & t & b & Hvar & Ht & Hb); [left|done|].
    unfold interface, dict_item. rewrite Hvar, Hv, Ht. simpl. rewrite Hb. simpl.
    destruct (IH ((bs0 ++ [b])%list) (u0 ∪ {[k]})) as (bs & ->).
    + intros k' v' Hk'. apply Hconv. by right.
    + intros k' Hk'. apply Hall. by right.
    + exists bs. f_equal. f_equal. set_solver.
Qed.

(** The upstream list: the node of every promise argument, in argument
    order. *)
Lemma upstream_of_Ok vs ups :
  upstream_of vs = Ok ups ↔
  Forall (λ v, ∀ p, v = VPromise p → is_Some (ref p)) vs ∧
  ups = omap referenced_node vs.
Proof.
  revert ups. induction vs as [|v vs IH]; intros ups; simpl.
  - split; [intros [= <-]; by split|by intros [_ ->]].
  - destruct v as [| |p| | |]; simpl;
      try (rewrite IH, Forall_cons; split; [intros [? ?]|intros [[_ ?] ?]]; by repeat split).
    destruct (ref p) as [o|] eqn:Ho; simpl.
    + split.
      * intros (ups' & [Hall ->]%IH & [= <-])%bind_Ok. split; [|done].
        constructor; [|done]. intros ? [= <-]. by rewrite Ho.
      * intros [[_ Hall]%Forall_cons ->]. apply bind_Ok. eexists. split; [|done].
        by apply IH.
    + split; [done|]. intros [[Hp _]%Forall_cons _].
      destruct (Hp p eq_refl) as [? Ho']. congruence.
Qed.

Lemma upstream_of_Permutation vs vs' ups :
  vs ≡ₚ vs' → upstream_of vs = Ok ups →
  ∃ ups', upstream_of vs' = Ok ups' ∧ ups ≡ₚ ups'.
Proof.
  intros Hp [Hall ->]%upstream_of_Ok. exists (omap referenced_node vs'). split.
  - apply upstream_of_Ok. split; [by rewrite <-Hp|done].
  - by rewrite Hp.
Qed.

End linking.

Section link_node.
Context `{Collaborators}.

Lemma no_extra_inputs (u ks : gset string) :
  bool_decide (0 < size (symmetric_difference u ks)) = false ↔
  symmetric_difference u ks = ∅.
Proof.
  rewrite bool_decide_eq_false, <-leibniz_equiv_iff, <-size_empty_iff. lia.
Qed.

(** A successful link, taken apart. *)
Lemma link_Ok self ctx kw v ctx' :
  _create_and_link_node self ctx kw = Ok (v, ctx') ↔
  ∃ bs u ups cs,
    bind_inputs self ctx kw (sorted id (keys (inputs (interface self)))) [] ∅
      = Ok (bs, u) ∧
    symmetric_difference u (list_to_set (keys kw)) = ∅ ∧
    upstream_of (values kw) = Ok ups ∧
    compilation_state ctx = Some cs ∧
    let node := mkNode ("node-" +:+ pretty (length (nodes cs)))
                       (mkNodeMetadata (_name self) 0 0)
                       (sorted b_var bs) ups (_name self) in
    ctx' = append_node node cs ctx ∧
    v = create_task_output
          (Some ((λ o, mkPromise o (Ref (mkNodeOutput node o)))
                   <$> keys (outputs (interface self)))).
Proof.
  unfold _create_and_link_node. split.
  - intros Hl. apply bind_Ok in Hl as ([bs u] & Hb & Hl).
    destruct (bool_decide _) eqn:Hextra; [done|]. apply no_extra_inputs in Hextra.
    apply bind_Ok in Hl as (ups & Hups & Hl).
    apply bind_Ok in Hl as (cs & Hcs & Hl).
    destruct (compilation_state ctx) as [cs'|]; [|done].
    injection Hcs as ->. injection Hl as <- <-.
    exists bs, u, ups, cs. done.
  - intros (bs & u & ups & cs & Hb & Hextra & Hups & Hcs & Hctx & Hv).
    rewrite Hb. simpl. apply no_extra_inputs in Hextra. rewrite Hextra.
    rewrite Hups. simpl. rewrite Hcs. simpl. by rewrite Hctx, Hv.
Qed.

Lemma link_set_function f self ctx kw :
  _create_and_link_node (set_function f self) ctx kw = _create_and_link_node self ctx kw.
Proof.
  unfold _create_and_link_node.
  rewrite (bind_inputs_ext (set_function f self) self ctx kw kw).
  all: reflexivity.
Qed.

End link_node.

(** C2. In link mode, that is while a compilation context is active, the
    outcome of a call does not depend on the body of the workflow, and a
    call that returns has appended exactly one node to the node list of
    the context, identified ["node-<n>"] with [n] the number of nodes that
    were there before; it returns one promise per declared output, each
    referring to the new node under the output's name: the promise itself
    when one output is declared, a tuple of them otherwise. *)
Theorem link_mode_contract `{Collaborators} self args kw ctx cs :
  compilation_state ctx = Some cs →
  (∀ f, __call__ (set_function f self) args kw ctx = __call__ self args kw ctx) ∧
  ∀ v ctx', __call__ self args kw ctx = Ok (v, ctx') →
    ∃ node,
      compilation_state ctx' = Some (mkCompilationState (nodes cs ++ [node])) ∧
      execution_state ctx' = execution_state ctx ∧
      registration_settings ctx' = registration_settings ctx ∧
      node_id node = "node-" +:+ pretty (length (nodes cs)) ∧
      node_flyte_entity node = _name self ∧
      v = match keys (outputs (interface self)) with
          | [o] => VPromise (mkPromise o (Ref (mkNodeOutput node o)))
          | os => VTuple ((λ o, VPromise (mkPromise o (Ref (mkNodeOutput node o)))) <$> os)
          end.
Proof.
  intros Hcs. unfold __call__. rewrite Hcs. split.
  - intros f. case_bool_decide; [done|]. apply link_set_function.
  - intros v ctx'. case_bool_decide; [done|].
    intros (bs & u & ups & cs' & _ & _ & _ & Hcs' & -> & ->)%link_Ok.
    rewrite Hcs in Hcs'. injection Hcs' as <-.
    eexists. split_and!; try done.
    simpl. destruct (keys (outputs (interface self))) as [|o [|o' os]]; simpl; try done.
    by rewrite <-!list_fmap_compose.
Qed.

Lemma link_mode_contract_witness :
  @__call__ Sample.collaborators Sample.add []
      [("a", Sample.pair_o0); ("b", Sample.pair_o1)] Sample.tracing
    = Ok (VPromise (mkPromise "o0" (Ref (mkNodeOutput Sample.node_add "o0"))),
          mkFlyteContext (Some (mkCompilationState [Sample.node_pair; Sample.node_add]))
                         None None) ∧
  ∃ node,
    Some (mkCompilationState [Sample.node_pair; Sample.node_add])
      = Some (mkCompilationState ([Sample.node_pair] ++ [node])) ∧
    node_id node = "node-1".
Proof.
  assert (@__call__ Sample.collaborators Sample.add []
            [("a", Sample.pair_o0); ("b", Sample.pair_o1)] Sample.tracing
          = Ok (VPromise (mkPromise "o0" (Ref (mkNodeOutput Sample.node_add "o0"))),
                mkFlyteContext
                  (Some (mkCompilationState [Sample.node_pair; Sample.node_add]))
                  None None)) as Hcall by (vm_compute; reflexivity).
  split; [exact Hcall|].
  destruct (proj2 (@link_mode_contract Sample.collaborators Sample.add []
                     [("a", Sample.pair_o0); ("b", Sample.pair_o1)] Sample.tracing
                     (mkCompilationState [Sample.node_pair]) eq_refl) _ _ Hcall)
    as (node & Hnodes & _ & _ & Hid & _).
  exists node. split; [exact Hnodes|exact Hid].
Defined.

(** ** Upstream nodes *)

(** C4, as stated, fails: linking [add(a=x, b=y)] where [x] and [y] are the
    two outputs of one node records that node twice. *)
Lemma upstream_duplicates :
  @_create_and_link_node Sample.collaborators Sample.add Sample.tracing
      [("a", Sample.pair_o0); ("b", Sample.pair_o1)]
    = Ok (VPromise (mkPromise "o0" (Ref (mkNodeOutput Sample.node_add "o0"))),
          mkFlyteContext (Some (mkCompilationState [Sample.node_pair; Sample.node_add]))
                         None None) ∧
  node_upstream_nodes Sample.node_add = [Sample.node_pair; Sample.node_pair] ∧
  ¬ upstream_is_duplicate_free.
Proof.
  split; [vm_compute; reflexivity|]. split; [reflexivity|].
  intros Hclaim.
  specialize (Hclaim Sample.collaborators Sample.add Sample.tracing
                [("a", Sample.pair_o0); ("b", Sample.pair_o1)]
                (mkCompilationState [Sample.node_pair]) _ _ Sample.node_add
                eq_refl eq_refl eq_refl).
  simpl in Hclaim. apply NoDup_cons in Hclaim as [Hin _].
  apply Hin. left.
Qed.

(** C4, amended. The upstream list of a linked node holds, in the order of
    the keyword arguments, the node referred to by each argument that is a
    promise, and nothing else: a node is in the list exactly when some
    promise argument refers to it, an argument that is not a promise adds
    no entry, and with no promise among the arguments the list is empty. *)
Theorem upstream_nodes_of_link `{Collaborators} self ctx kw cs v ctx' :
  compilation_state ctx = Some cs →
  _create_and_link_node self ctx kw = Ok (v, ctx') →
  ∃ node,
    compilation_state ctx' = Some (mkCompilationState (nodes cs ++ [node])) ∧
    node_upstream_nodes node = omap referenced_node (values kw) ∧
    (∀ n, n ∈ node_upstream_nodes node ↔
          ∃ p o, VPromise p ∈ values kw ∧ ref p = Some o ∧ sdk_node o = n) ∧
    ((∀ x, x ∈ values kw → ∀ p, x ≠ VPromise p) → node_upstream_nodes node = []).
Proof.
  intros Hcs (bs & u & ups & cs' & _ & _ & Hups & Hcs' & -> & _)%link_Ok.
  rewrite Hcs in Hcs'. injection Hcs' as <-.
  apply upstream_of_Ok in Hups as [_ ->].
  eexists. split; [done|]. simpl. split; [done|]. split.
  - intros n. rewrite list_elem_of_omap. split.
    + intros ([| |p| | |] & Hin & Hn); simpl in Hn; try done.
      destruct (ref p) as [o|] eqn:Ho; [|done]. injection Hn as <-. eauto.
    + intros (p & o & Hin & Ho & <-). exists (VPromise p). split; [done|].
      simpl. by rewrite Ho.
  - intros Hconcrete. induction (values kw) as [|x xs IH]; [done|]. simpl.
    destruct x as [| |p| | |]; simpl;
      try (apply IH; intros; apply Hconcrete; by right).
    destruct (Hconcrete (VPromise p) ltac:(left) p eq_refl).
Qed.

Lemma upstream_nodes_of_link_witness :
  ∃ node,
    Some (mkCompilationState [Sample.node_pair; Sample.node_add])
      = Some (mkCompilationState ([Sample.node_pair] ++ [node])) ∧
    node_upstream_nodes node
      = omap referenced_node (values [("a", Sample.pair_o0); ("b", Sample.pair_o1)]).
Proof.
  destruct (@upstream_nodes_of_link Sample.collaborators Sample.add Sample.tracing
              [("a", Sample.pair_o0); ("b", Sample.pair_o1)]
              (mkCompilationState [Sample.node_pair])
              (VPromise (mkPromise "o0" (Ref (mkNodeOutput Sample.node_add "o0"))))
              (mkFlyteContext
                 (Some (mkCompilationState [Sample.node_pair; Sample.node_add]))
                 None None)
              eq_refl ltac:(vm_compute; reflexivity))
    as (node & Hnodes & Hups & _).
  exists node. split; [exact Hnodes|exact Hups].
Defined.

(** ** Order of the bindings *)

Section binding_order.
Context `{Collaborators}.

Lemma bind_inputs_vars self ctx kw ks bs u :
  (∀ k lt x t b, binding_from_python_std ctx k lt x t = Ok b → b_var b = k) →
  bind_inputs self ctx kw ks [] ∅ = Ok (bs, u) →
  b_var <$> bs = ks.
Proof.
  intros Hvar (_ & bs1 & -> & Hall)%bind_inputs_Ok. simpl.
  induction Hall as [|k b ks bs (v & var & t & _ & _ & _ & Hb) _ IH]; [done|].
  by rewrite fmap_cons, IH, (Hvar _ _ _ _ _ Hb).
Qed.

End binding_order.

(** C7. The bindings of a linked node are sorted by their variable, and a
    call with the same keyword arguments in another order links a node with
    the same identifier, the very same list of bindings and the same
    upstream nodes (the same nodes as often, listed in the order of the
    arguments).  Whenever the binding helper names a binding after the
    input it was asked to bind, the variables of the bindings are the
    declared input names in sorted order. *)
Theorem binding_order_invariance `{Collaborators} self ctx kw kw' cs v ctx1 :
  NoDup (keys kw) → kw ≡ₚ kw' →
  compilation_state ctx = Some cs →
  _create_and_link_node self ctx kw = Ok (v, ctx1) →
  ∃ node node' v',
    ctx1 = append_node node cs ctx ∧
    _create_and_link_node self ctx kw' = Ok (v', append_node node' cs ctx) ∧
    Sorted (key_le b_var) (node_bindings node) ∧
    node_bindings node' = node_bindings node ∧
    node_id node' = node_id node ∧
    node_upstream_nodes node' ≡ₚ node_upstream_nodes node ∧
    (∀ n, n ∈ node_upstream_nodes node' ↔ n ∈ node_upstream_nodes node) ∧
    ((∀ k lt x t b, binding_from_python_std ctx k lt x t = Ok b → b_var b = k) →
       b_var <$> node_bindings node = sorted id (keys (inputs (interface self)))).
Proof.
  intros Hnd Hp Hcs (bs & u & ups & cs' & Hb & Hextra & Hups & Hcs' & -> & ->)%link_Ok.
  rewrite Hcs in Hcs'. injection Hcs' as <-.
  assert (values kw ≡ₚ values kw') as Hpv by (unfold values; by rewrite Hp).
  destruct (upstream_of_Permutation _ _ _ Hpv Hups) as (ups' & Hups' & Hpu).
  eexists _, (mkNode ("node-" +:+ pretty (length (nodes cs)))
                (mkNodeMetadata (_name self) 0 0) (sorted b_var bs) ups' (_name self)), _.
  split; [done|]. split.
  { apply link_Ok. exists bs, u, ups', cs. split_and!; try done.
    - rewrite <-Hb. symmetry. apply bind_inputs_ext; try done.
      intros k. by apply dict_get_Permutation.
    - rewrite <-Hextra. f_equal. apply set_eq. intros k.
      rewrite !elem_of_list_to_set. unfold keys. by rewrite Hp. }
  simpl. split; [apply sorted_Sorted|]. split; [done|]. split; [done|].
  split; [done|]. split; [intros n; by rewrite Hpu|].
  intros Hvar. pose proof (bind_inputs_vars _ _ _ _ _ _ Hvar Hb) as Hks.
  rewrite sorted_of_Sorted; [exact Hks|].
  apply Sorted_fmap_key. rewrite Hks. apply sorted_Sorted.
Qed.

Lemma binding_order_invariance_witness :
  ∃ node node' v',
    mkFlyteContext (Some (mkCompilationState [Sample.node_pair; Sample.node_add]))
                   None None
      = append_node node (mkCompilationState [Sample.node_pair]) Sample.tracing ∧
    @_create_and_link_node Sample.collaborators Sample.add Sample.tracing
        [("b", Sample.pair_o1); ("a", Sample.pair_o0)]
      = Ok (v', append_node node' (mkCompilationState [Sample.node_pair]) Sample.tracing) ∧
    node_bindings node' = node_bindings node.
Proof.
  destruct (@binding_order_invariance Sample.collaborators Sample.add Sample.tracing
              [("a", Sample.pair_o0); ("b", Sample.pair_o1)]
              [("b", Sample.pair_o1); ("a", Sample.pair_o0)]
              (mkCompilationState [Sample.node_pair])
              (VPromise (mkPromise "o0" (Ref (mkNodeOutput Sample.node_add "o0"))))
              (mkFlyteContext
                 (Some (mkCompilationState [Sample.node_pair; Sample.node_add]))
                 None None)
              ltac:(vm_compute; repeat constructor; set_solver)
              ltac:(apply Permutation_swap)
              eq_refl ltac:(vm_compute; reflexivity))
    as (node & node' & v' & Hctx & Hcall & _ & Hbs & _).
  exists node, node', v'. split; [exact Hctx|]. split; [exact Hcall|exact Hbs].
Defined.

(** ** Validation of the keyword arguments of a linked call *)

Section validation.
Context `{Collaborators}.

Lemma elem_of_sorted_keys {V} (d : dict V) k :
  k ∈ sorted id (keys d) ↔ k ∈ keys d.
Proof. by rewrite sorted_Permutation. Qed.

(** A call that links has supplied exactly the declared names. *)
Lemma link_Ok_names self ctx kw r :
  _create_and_link_node self ctx kw = Ok r →
  ∀ k, k ∈ keys kw ↔ k ∈ keys (inputs (interface self)).
Proof.
  destruct r as [v ctx'].
  intros (bs & u & ups & cs & Hb & Hextra & _)%link_Ok k.
  apply bind_inputs_Ok in Hb as (-> & _).
  unfold symmetric_difference in Hextra.
  pose proof (proj1 (set_eq _ _) Hextra k) as Hk.
  rewrite elem_of_union, !elem_of_difference, elem_of_union, elem_of_empty,
    !elem_of_list_to_set, elem_of_sorted_keys in Hk.
  destruct (decide (k ∈ keys kw)), (decide (k ∈ keys (inputs (interface self)))); tauto.
Qed.

Lemma link_missing_input self ctx kw :
  inputs_bindable self ctx kw →
  (∃ k, k ∈ keys (inputs (interface self)) ∧ k ∉ keys kw) →
  ∃ pre k post var,
    sorted id (keys (inputs (interface self))) = (pre ++ k :: post)%list ∧
    (∀ k', k' ∈ pre → k' ∈ keys kw) ∧
    k ∈ keys (inputs (interface self)) ∧ (k ∉ keys kw) ∧
    dict_get k (inputs (interface self)) = Some var ∧
    _create_and_link_node self ctx kw
      = Err (FlyteAssertion (InputNotSpecified k (var_type var))).
Proof.
  intros Hconv (k0 & Hk0 & Hmiss).
  destruct (bind_inputs_missing self ctx kw
              (sorted id (keys (inputs (interface self)))) [] ∅)
    as (pre & k & post & var & Hsplit & Hpre & Hm & Hvar & Heq).
  - intros k v Hk. apply Hconv. by apply elem_of_sorted_keys.
  - intros k. apply elem_of_sorted_keys.
  - exists k0. split; [by apply elem_of_sorted_keys|done].
  - exists pre, k, post, var. split; [done|]. split; [done|]. split.
    { apply elem_of_sorted_keys. rewrite Hsplit. apply elem_of_app. right. left. }
    split; [done|]. split; [done|].
    unfold _create_and_link_node. by rewrite Heq.
Qed.

Lemma link_extra_input self ctx kw :
  inputs_bindable self ctx kw →
  (∀ k, k ∈ keys (inputs (interface self)) → k ∈ keys kw) →
  (∃ k, k ∈ keys kw ∧ k ∉ keys (inputs (interface self))) →
  _create_and_link_node self ctx kw
    = Err (FlyteAssertion
             (TooManyInputs (list_to_set (keys kw)
                               ∖ list_to_set (keys (inputs (interface self)))))).
Proof.
  intros Hconv Hall (k0 & Hk0 & Hextra).
  destruct (bind_inputs_complete self ctx kw
              (sorted id (keys (inputs (interface self)))) [] ∅) as (bs & Hb).
  - intros k v Hk. apply Hconv. by apply elem_of_sorted_keys.
  - intros k Hk. by apply Hall, elem_of_sorted_keys.
  - unfold _create_and_link_node. rewrite Hb. simpl.
    assert (symmetric_difference (∅ ∪ list_to_set (sorted id (keys (inputs (interface self)))))
              (list_to_set (keys kw))
            = list_to_set (keys kw) ∖ list_to_set (keys (inputs (interface self))))
      as ->.
    { unfold symmetric_difference. apply set_eq. intros k.
      rewrite !elem_of_union, !elem_of_difference, !elem_of_union, !elem_of_list_to_set,
        elem_of_sorted_keys, elem_of_empty.
      specialize (Hall k). tauto. }
    rewrite bool_decide_eq_true_2; [done|].
    assert (k0 ∈ (list_to_set (keys kw) ∖ list_to_set (keys (inputs (interface self)))
                  : gset string)) as Hin.
    { rewrite elem_of_difference, !elem_of_list_to_set. done. }
    destruct (decide (size (list_to_set (keys kw)
                ∖ list_to_set (keys (inputs (interface self))) : gset string) = 0))
      as [Hz|Hz]; [|lia].
    apply size_empty_iff in Hz. set_solver.
Qed.

End validation.

(** C6, as stated, fails: [add(x=None)] supplies an undeclared name and
    none of the declared ones, and what is raised is the assertion about
    the missing input [a], not the one about too many inputs. *)
Lemma undeclared_name_with_missing_input :
  @_create_and_link_node Sample.collaborators Sample.add Sample.tracing [("x", VNone)]
    = Err (FlyteAssertion (InputNotSpecified "a" LT_integer)) ∧
  "x" ∈ keys [("x", VNone)] ∧
  ("x" ∉ keys (inputs (interface Sample.add))) ∧
  ¬ undeclared_name_raises_too_many_inputs.
Proof.
  assert ("x" ∉ keys (inputs (interface Sample.add))) as Hx.
  { unfold keys. simpl. intros [[=]|[=]%list_elem_of_singleton]%elem_of_cons. }
  split; [reflexivity|]. split; [by apply list_elem_of_singleton|]. split; [done|].
  intros Hclaim.
  destruct (Hclaim Sample.collaborators Sample.add Sample.tracing [("x", VNone)])
    as [extra Hextra]; [|done].
  exists "x". split; [by apply list_elem_of_singleton|done].
Qed.

(** C6, amended. A call linked as a node fails whenever the names of its
    keyword arguments are not exactly the declared input names, and so
    builds a node only when the two sets of names are equal.  The declared
    inputs are looked up first, in sorted order of their names: when the
    arguments that are supplied can be bound, a missing declared input
    raises the assertion about a missing input, whether or not undeclared
    names are supplied as well, and the assertion names the first declared
    input of the sorted order that is missing, with its declared type;
    only with nothing missing does an undeclared name raise the
    too-many-inputs assertion, which lists the undeclared names. *)
Theorem link_input_validation `{Collaborators} self ctx kw :
  (((∃ k, k ∈ keys (inputs (interface self)) ∧ k ∉ keys kw) ∨
    (∃ k, k ∈ keys kw ∧ k ∉ keys (inputs (interface self)))) →
   is_Err (_create_and_link_node self ctx kw)) ∧
  (∀ r, _create_and_link_node self ctx kw = Ok r →
        ∀ k, k ∈ keys kw ↔ k ∈ keys (inputs (interface self))) ∧
  (inputs_bindable self ctx kw →
   (∃ k, k ∈ keys (inputs (interface self)) ∧ k ∉ keys kw) →
   ∃ pre k post var,
     sorted id (keys (inputs (interface self))) = (pre ++ k :: post)%list ∧
     (∀ k', k' ∈ pre → k' ∈ keys kw) ∧
     k ∈ keys (inputs (interface self)) ∧ (k ∉ keys kw) ∧
     dict_get k (inputs (interface self)) = Some var ∧
     _create_and_link_node self ctx kw
       = Err (FlyteAssertion (InputNotSpecified k (var_type var)))) ∧
  (inputs_bindable self ctx kw →
   (∀ k, k ∈ keys (inputs (interface self)) → k ∈ keys kw) →
   (∃ k, k ∈ keys kw ∧ k ∉ keys (inputs (interface self))) →
   _create_and_link_node self ctx kw
     = Err (FlyteAssertion
              (TooManyInputs (list_to_set (keys kw)
                                ∖ list_to_set (keys (inputs (interface self))))))).
Proof.
  split_and!.
  - intros Hdiff.
    destruct (_create_and_link_node self ctx kw) as [r|e] eqn:Hl; [|by eexists].
    pose proof (link_Ok_names _ _ _ _ Hl) as Hnames.
    destruct Hdiff as [(k & Hk & Hn)|(k & Hk & Hn)]; destruct Hn; by apply Hnames.
  - apply link_Ok_names.
  - apply link_missing_input.
  - apply link_extra_input.
Qed.

Lemma link_input_validation_witness :
  (∃ pre k post var,
     sorted id (keys (inputs (interface Sample.add))) = (pre ++ k :: post)%list ∧
     (∀ k', k' ∈ pre → k' ∈ keys [("b", VNative (NInt 1))]) ∧
     k ∈ keys (inputs (interface Sample.add)) ∧
     (k ∉ keys [("b", VNative (NInt 1))]) ∧
     dict_get k (inputs (interface Sample.add)) = Some var ∧
     @_create_and_link_node Sample.collaborators Sample.add Sample.tracing
         [("b", VNative (NInt 1))]
       = Err (FlyteAssertion (InputNotSpecified k (var_type var)))) ∧
  @_create_and_link_node Sample.collaborators Sample.add Sample.tracing
      [("a", VNative (NInt 1)); ("b", VNative (NInt 2)); ("x", VNone)]
    = Err (FlyteAssertion
             (TooManyInputs
                (list_to_set (keys [("a", VNative (NInt 1)); ("b", VNative (NInt 2));
                                    ("x", VNone)])
                   ∖ list_to_set (keys (inputs (interface Sample.add)))))).
Proof.
  split.
  - apply (proj1 (proj2 (proj2 (@link_input_validation Sample.collaborators
                                   Sample.add Sample.tracing [("b", VNative (NInt 1))])))).
    + intros k v _ Hget. simpl in Hget. case_decide; [|done].
      injection Hget as <-. subst k. by eexists _, _, _.
    + exists "a". split; [set_solver|]. by intros [=]%list_elem_of_singleton.
  - apply (proj2 (proj2 (proj2 (@link_input_validation Sample.collaborators
                                   Sample.add Sample.tracing
                                   [("a", VNative (NInt 1)); ("b", VNative (NInt 2));
                                    ("x", VNone)])))).
    + intros k v Hk Hget. simpl in Hget.
      repeat case_decide; simplify_eq; try by eexists _, _, _.
      exfalso. unfold keys in Hk. simpl in Hk.
      apply elem_of_cons in Hk as [[=]|Hk].
      by apply list_elem_of_singleton in Hk.
    + intros k Hk. set_solver.
    + exists "x". split; [set_solver|]. set_solver.
Defined.

(** The declared inputs of [add] are [b, a]; the loop takes them as
    [a, b], so with both missing it is [a] that the assertion names. *)
Lemma link_reports_least_missing :
  sorted id (keys (inputs (interface Sample.add))) = ["a"; "b"] ∧
  @_create_and_link_node Sample.collaborators Sample.add Sample.tracing []
    = Err (FlyteAssertion (InputNotSpecified "a" LT_integer)).
Proof. split; reflexivity. Qed.

(** ** Top-level calls *)

Section local_root.
Context `{Collaborators}.

Lemma check_native_kwargs_Ok self kw :
  check_native_kwargs self kw = Ok () →
  ∀ k v, (k, v) ∈ kw → k ∈ keys (inputs (interface self)) ∧ ∀ p, v ≠ VPromise p.
Proof.
  induction kw as [|[k' v'] kw IH]; simpl; [by intros _ ? ? ?%elem_of_nil|].
  destruct (dict_mem k' (inputs (interface self))) eqn:Hmem; simpl; [|done].
  apply dict_mem_keys in Hmem.
  intros Hc k v [[= -> ->]|Hin]%elem_of_cons.
  - split; [done|]. intros p ->. done.
  - apply IH; [|done]. by destruct v'.
Qed.

Lemma check_native_kwargs_Err self kw :
  (∃ k v, (k, v) ∈ kw ∧ (k ∉ keys (inputs (interface self)) ∨ ∃ p, v = VPromise p)) →
  ∃ m, check_native_kwargs self kw = Err (ValueError m).
Proof.
  intros Hbad.
  assert (∀ r, check_native_kwargs self kw = r →
               r = Ok () ∨ ∃ m, r = Err (ValueError m)) as Hshape.
  { clear Hbad. induction kw as [|[k v] kw IH]; simpl; intros r <-; [by left|].
    destruct (dict_mem k (inputs (interface self))); simpl; [|by eauto].
    destruct v; eauto. }
  destruct (Hshape _ eq_refl) as [Hok|?]; [|done].
  destruct Hbad as (k & v & Hin & Hbad).
  destruct (check_native_kwargs_Ok _ _ Hok k v Hin) as [Hk Hv].
  destruct Hbad as [?|[p ->]]; [done|]. by destruct (Hv p).
Qed.

Lemma native_list_Ok self ctx items ns :
  native_list self ctx items = Ok ns →
  ∃ ps, items = VPromise <$> ps ∧
        Forall2 (λ p n, ∃ t,
                   dict_get (p_var p) (outputs (_native_interface self)) = Some t ∧
                   to_python_value ctx (val p) t = Ok n) ps ns.
Proof.
  revert ns. induction items as [|x items IH]; intros ns Hn; simpl in Hn.
  - injection Hn as <-. by exists [].
  - destruct x as [| |p| | |]; try done.
    apply bind_Ok in Hn as (t & Ht%dict_item_Ok & Hn).
    apply bind_Ok in Hn as (n & Hconv & Hn).
    apply bind_Ok in Hn as (ns' & (ps & -> & Hall)%IH & [= <-]).
    exists (p :: ps). split; [done|]. constructor; eauto.
Qed.

Lemma native_result_Ok self ctx result_ v :
  native_result self ctx result_ = Ok v → converted_back self ctx result_ v.
Proof.
  unfold native_result. intros Hr.
  apply bind_Ok in Hr as (matches & _ & Hr).
  destruct matches; [|done].
  destruct result_ as [|n|p|? ?| |vs].
  - injection Hr as <-. by left.
  - right; right. apply bind_Ok in Hr as (items & Hitems & Hr).
    unfold py_iter in Hitems.
    destruct n as [| | |l]; simpl in Hitems; try done; injection Hitems as <-.
    + destruct (String.list_ascii_of_string s); done.
    + destruct l; done.
  - right; left. destruct (outputs (_native_interface self)) as [|[k t] ?] eqn:Ho; [done|].
    apply fmap_Ok in Hr as (n & Hconv & ->). by exists p, k, t, n.
  - done.
  - done.
  - right; right. simpl in Hr. destruct vs as [|[| |p| | |] vs]; try done.
    apply fmap_Ok in Hr as (ns & (ps & Hps & Hall)%native_list_Ok & ->).
    exists ps, ns. by rewrite Hps.
Qed.

End local_root.

(** C8. Positional arguments are refused.  At top level, with neither a
    compilation context nor a local workflow execution under way, a
    promise among the argument values is refused, a keyword that is not a
    declared input is refused, and a call that returns hands back the
    result of the local execution with every promise converted to a native
    value, the context being as it was before the call. *)
Theorem local_root_dispatch `{Collaborators} self args kw ctx :
  (args ≠ [] →
   __call__ self args kw ctx
     = Err (AssertionError "Only Keyword Arguments are supported for Workflow executions")) ∧
  (compilation_state ctx = None → is_local_workflow_execution ctx = false →
   ((∃ k p, (k, VPromise p) ∈ kw) → ∃ m, __call__ self [] kw ctx = Err (ValueError m)) ∧
   ((∃ k, k ∈ keys kw ∧ k ∉ keys (inputs (interface self))) →
      ∃ m, __call__ self [] kw ctx = Err (ValueError m)) ∧
   (∀ v ctx', __call__ self [] kw ctx = Ok (v, ctx') →
      ctx' = ctx ∧
      ∃ result_ ctx1,
        _local_execute self (new_execution_context LOCAL_WORKFLOW_EXECUTION ctx) kw
          = Ok (result_, ctx1) ∧
        converted_back self ctx1 result_ v)).
Proof.
  split.
  - intros Hargs. unfold __call__. rewrite bool_decide_eq_true_2; [done|].
    destruct args; [done|simpl; lia].
  - intros Hcs Hmode. unfold __call__. simpl. rewrite Hcs, Hmode. split_and!.
    + intros (k & p & Hin).
      destruct (check_native_kwargs_Err self kw) as [m Hm]; [by eauto 10|].
      exists m. by rewrite Hm.
    + intros (k & [[k' v] [-> Hin]]%list_elem_of_fmap & Hk). simpl in Hk.
      destruct (check_native_kwargs_Err self kw) as [m Hm]; [by eauto 10|].
      exists m. by rewrite Hm.
    + intros v ctx' Hcall.
      apply bind_Ok in Hcall as (_ & _ & Hcall).
      apply bind_Ok in Hcall as ([result_ ctx1] & Hexec & Hcall).
      apply bind_Ok in Hcall as (v' & Hv & [= <- <-]).
      split; [done|]. exists result_, ctx1. split; [done|].
      by apply native_result_Ok.
Qed.

Lemma local_root_dispatch_witness :
  @__call__ Sample.collaborators Sample.both [VNone] [("n", VNative (NInt 3))]
      Sample.top_level
    = Err (AssertionError "Only Keyword Arguments are supported for Workflow executions") ∧
  (∃ m, @__call__ Sample.collaborators Sample.both [] [("n", Sample.pair_o0)]
          Sample.top_level = Err (ValueError m)) ∧
  (∃ m, @__call__ Sample.collaborators Sample.both []
          [("n", VNative (NInt 3)); ("extra", VNative (NInt 1))]
          Sample.top_level = Err (ValueError m)) ∧
  ∃ result_ ctx1,
    @_local_execute Sample.collaborators Sample.both
        (new_execution_context LOCAL_WORKFLOW_EXECUTION Sample.top_level)
        [("n", VNative (NInt 3))]
      = Ok (result_, ctx1) ∧
    @converted_back Sample.collaborators Sample.both ctx1 result_
        (VTuple [VNative (NInt 3); VNative (NInt 3)]).
Proof.
  split_and!.
  - apply (proj1 (@local_root_dispatch Sample.collaborators Sample.both [VNone]
                    [("n", VNative (NInt 3))] Sample.top_level)).
    done.
  - apply (proj1 (proj2 (@local_root_dispatch Sample.collaborators Sample.both []
                           [("n", Sample.pair_o0)] Sample.top_level) eq_refl eq_refl)).
    eexists "n", _. apply list_elem_of_singleton. reflexivity.
  - apply (proj1 (proj2 (proj2 (@local_root_dispatch Sample.collaborators Sample.both []
                                  [("n", VNative (NInt 3)); ("extra", VNative (NInt 1))]
                                  Sample.top_level) eq_refl eq_refl))).
    exists "extra". split; [set_solver|].
    unfold keys. simpl. intros [=]%list_elem_of_singleton.
  - apply (proj2 (proj2 (proj2 (@local_root_dispatch Sample.collaborators Sample.both []
                                  [("n", VNative (NInt 3))] Sample.top_level)
                           eq_refl eq_refl))
             (VTuple [VNative (NInt 3); VNative (NInt 3)]) Sample.top_level).
    vm_compute. reflexivity.
Defined.

(** * Further properties *)

(** ** Recasting the outputs of a local execution *)

Section outputs_to_promise.
Context `{Collaborators}.

Lemma recast_outputs_Ok ctx typed_outputs items ps :
  recast_outputs ctx typed_outputs items = Ok ps →
  Forall2 (λ ktv p, recast ctx typed_outputs ktv.1.1 ktv.1.2 ktv.2 p) items ps.
Proof.
  revert ps. induction items as [|[[k t] v] items IH]; intros ps Hr; simpl in Hr.
  - injection Hr as <-. constructor.
  - apply bind_Ok in Hr as (p & Hp & Hr).
    apply bind_Ok in Hr as (ps' & Hps & [= <-]).
    constructor; [|by apply IH]. simpl. unfold recast.
    destruct v as [|n|q|nid x| |ws];
      try (injection Hp as <-; split; [done|left; by exists q]).
    all: apply bind_Ok in Hp as (var & Hvar%dict_item_Ok & Hp).
    all: apply bind_Ok in Hp as (l & Hl & [= <-]).
    all: split; [done|right; split; [done|by exists var, l]].
Qed.

(** X1. When recasting succeeds, the shape of what the body returned fits
    the declared outputs: nothing for no outputs; for one output a bare
    value or a tuple of one; for several a tuple of exactly that many.
    There is then one promise per declared output, in declared order and
    named after it; a returned promise is that same promise under the name
    of the output, any other value is converted to a literal at the
    declared type. *)
Theorem outputs_to_promise_Ok ctx native_outputs typed_outputs outputs r :
  _workflow_fn_outputs_to_promise ctx native_outputs typed_outputs outputs = Ok r →
  match r with
  | None => native_outputs = [] ∧ outputs = VNone
  | Some ps =>
      native_outputs ≠ [] ∧
      p_var <$> ps = keys native_outputs ∧
      ∃ vs, (outputs = VTuple vs ∨
             (length native_outputs = 1 ∧ vs = [outputs] ∧ ∀ ws, outputs ≠ VTuple ws)) ∧
            Forall3 (λ kt v p, recast ctx typed_outputs kt.1 kt.2 v p)
                    native_outputs vs ps
  end.
Proof.
  unfold _workflow_fn_outputs_to_promise. intros Hr.
  assert (∀ vs ps, length vs = length native_outputs →
            recast_outputs ctx typed_outputs (zip native_outputs vs) = Ok ps →
            p_var <$> ps = keys native_outputs ∧
            Forall3 (λ kt v p, recast ctx typed_outputs kt.1 kt.2 v p)
                    native_outputs vs ps) as Hzip.
  { clear. intros vs ps Hlen Hrec%recast_outputs_Ok.
    revert vs ps Hlen Hrec.
    induction native_outputs as [|[k t] ns IH]; intros [|v vs] ps Hlen Hrec;
      simpl in Hlen; try lia.
    - inversion Hrec; subst. split; [done|constructor].
    - inversion Hrec as [|? p ? ps' Hp Hrest]; subst.
      destruct (IH vs ps') as [Hvars Hall]; [lia|done|].
      split; [|by constructor].
      destruct Hp as [Hp _]. simpl in Hp.
      unfold keys in *. by rewrite !fmap_cons, Hvars, Hp. }
  destruct native_outputs as [|kt [|kt' ns]] eqn:Hn; simpl in Hr.
  - destruct outputs; try done. by injection Hr as <-.
  - apply bind_Ok in Hr as (vs & Hvs & Hr). apply fmap_Ok in Hr as (ps & Hps & ->).
    assert (length vs = 1 ∧ (outputs = VTuple vs ∨
              (vs = [outputs] ∧ ∀ ws, outputs ≠ VTuple ws))) as [Hlen Hshape].
    { destruct outputs; try (injection Hvs as <-; split; [done|right; by split]).
      case_bool_decide as Hl; [done|]. try apply dec_stable in Hl.
      injection Hvs as <-. split; [done|by left]. }
    destruct (Hzip vs ps) as [Hvars Hall]; [done|done|].
    split; [done|]. split; [done|]. exists vs. split; [|done].
    destruct Hshape as [?|[? ?]]; [by left|by right].
  - apply bind_Ok in Hr as (vs & Hvs & Hr). apply fmap_Ok in Hr as (ps & Hps & ->).
    assert (length vs = S (S (length ns)) ∧ outputs = VTuple vs) as [Hlen ->].
    { destruct outputs as [| | | | |ws];
        try (apply bind_Ok in Hvs as (? & _ & ?); done).
      case_bool_decide as Hl; [done|]. try apply dec_stable in Hl.
      injection Hvs as <-. done. }
    destruct (Hzip vs ps) as [Hvars Hall]; [done|done|].
    split; [done|]. split; [done|]. exists vs. split; [by left|done].
Qed.

(** X2. The ways recasting refuses a returned value: something returned
    where no output is declared, a tuple of another length than one for
    one output, and for several outputs a tuple of another length or a
    value that is not a tuple, which ends in the assertion when the value
    has a length and in a [TypeError] from [len] when it has none. *)
Theorem outputs_to_promise_Err ctx native_outputs typed_outputs outputs :
  (native_outputs = [] → outputs ≠ VNone →
   _workflow_fn_outputs_to_promise ctx native_outputs typed_outputs outputs
     = Err (AssertionError "something returned from wf but shouldn't have outputs")) ∧
  (∀ vs, length native_outputs = 1 → outputs = VTuple vs → length vs ≠ 1 →
   _workflow_fn_outputs_to_promise ctx native_outputs typed_outputs outputs
     = Err (AssertionError
              ("The Workflow specification indicates only one return value, received "
               +:+ pretty (length vs)))) ∧
  (∀ vs, 1 < length native_outputs → outputs = VTuple vs →
   length vs ≠ length native_outputs →
   _workflow_fn_outputs_to_promise ctx native_outputs typed_outputs outputs
     = Err (AssertionError
              ("The workflow specification indicates " +:+ pretty (length native_outputs)
               +:+ " return vals, but received " +:+ pretty (length vs)))) ∧
  (1 < length native_outputs → (∀ vs, outputs ≠ VTuple vs) →
   _workflow_fn_outputs_to_promise ctx native_outputs typed_outputs outputs
     = match py_items outputs with
       | Some items =>
           Err (AssertionError
                  ("The workflow specification indicates "
                   +:+ pretty (length native_outputs)
                   +:+ " return vals, but received " +:+ pretty (length items)))
       | None => Err (TypeError "object has no len()")
       end).
Proof.
  unfold _workflow_fn_outputs_to_promise. split_and!.
  - intros -> Hne. simpl. by destruct outputs.
  - intros vs Hlen -> Hvs. destruct native_outputs as [|? [|? ?]]; simpl in *; try lia.
    by rewrite bool_decide_eq_true_2.
  - intros vs Hlen -> Hvs. destruct native_outputs as [|? [|? ?]]; simpl in *; try lia.
    rewrite bool_decide_eq_true_2; [done|]. simpl. lia.
  - intros Hlen Hnt. destruct native_outputs as [|? [|? ?]]; simpl in *; try lia.
    destruct outputs as [|[]| | | |vs]; simpl; try done.
    by destruct (Hnt vs).
Qed.

End outputs_to_promise.

(** ** The output arity that [compile] enforces *)

Section compile_arity.
Context `{Collaborators}.

Lemma compile_bind_Err self kw ctx wo cctx cs e :
  _workflow_function self (dict_update (_construct_input_promises self) kw)
                     (new_compilation_context ctx) = Ok (wo, cctx) →
  compilation_state cctx = Some cs →
  bind_workflow_outputs self ctx wo = Err e →
  compile self kw ctx = Err e.
Proof.
  intros Hbody Hcs Hbs.
  unfold compile, _construct_input_promises, interface in *. simpl.
  rewrite Hbody. simpl. rewrite Hcs. simpl.
  erewrite (bind_workflow_outputs_ext _ self); [|done].
  unfold bind_workflow_outputs, interface in *. by rewrite Hbs.
Qed.

(** X3. What a successful [compile] says about the value the traced body
    returned, for one declared output and more: with one output it was not
    a tuple of another length than one, with several it was a tuple of
    exactly that many values, none of them an unresolved branch. *)
Theorem compile_Ok_arity self kw ctx r self' :
  compile self kw ctx = Ok (r, self') →
  ∃ wo cctx,
    _workflow_function self (dict_update (_construct_input_promises self) kw)
                       (new_compilation_context ctx) = Ok (wo, cctx) ∧
    (length (outputs (interface self)) = 1 → ∀ vs, wo = VTuple vs → length vs = 1) ∧
    (1 < length (outputs (interface self)) →
     ∃ vs, wo = VTuple vs ∧ length vs = length (outputs (interface self)) ∧
           Forall (λ v, v ≠ VConditionalSection) vs).
Proof.
  intros (wo & cctx & cs & bs & Hbody & _ & Hbs & _)%compile_inv.
  exists wo, cctx. split; [done|]. split.
  - rewrite <-length_keys. intros Hlen vs ->.
    destruct (keys (outputs (interface self))) as [|out [|??]] eqn:Hk; simpl in Hlen; try lia.
    rewrite (bind_single_output _ _ out) in Hbs by done.
    by case_bool_decide.
  - intros Hlen. by eapply bind_many_outputs.
Qed.

(** X4. The arity errors of [compile], once the body has returned: one
    declared output and a tuple of another length than one; several
    declared outputs and a value that is not a tuple; several declared
    outputs and a tuple of another length. *)
Theorem compile_arity_errors self kw ctx wo cctx cs :
  _workflow_function self (dict_update (_construct_input_promises self) kw)
                     (new_compilation_context ctx) = Ok (wo, cctx) →
  compilation_state cctx = Some cs →
  (∀ vs, length (outputs (interface self)) = 1 → wo = VTuple vs → length vs ≠ 1 →
     compile self kw ctx
       = Err (AssertionError
                ("The Workflow specification indicates only one return value, received "
                 +:+ pretty (length vs)))) ∧
  (1 < length (outputs (interface self)) → (∀ vs, wo ≠ VTuple vs) →
     compile self kw ctx
       = Err (AssertionError
                "The Workflow specification indicates multiple return values, received only one")) ∧
  (∀ vs, 1 < length (outputs (interface self)) → wo = VTuple vs →
     length vs ≠ length (outputs (interface self)) →
     compile self kw ctx
       = Err (Exception ("Length mismatch " +:+ pretty (length (outputs (interface self)))
                         +:+ " vs " +:+ pretty (length vs)))).
Proof.
  intros Hbody Hcs. rewrite <-!length_keys. split_and!.
  - intros vs Hlen -> Hvs. eapply compile_bind_Err; [done..|].
    destruct (keys (outputs (interface self))) as [|out [|??]] eqn:Hk; simpl in Hlen; try lia.
    rewrite (bind_single_output _ _ out) by done.
    by rewrite bool_decide_eq_false_2.
  - intros Hlen Hnt. eapply compile_bind_Err; [done..|].
    unfold bind_workflow_outputs.
    destruct (keys (outputs (interface self))) as [|out [|??]] eqn:Hk; simpl in Hlen; try lia.
    destruct wo as [| | | | |vs]; try done. by destruct (Hnt vs).
  - intros vs Hlen -> Hvs. eapply compile_bind_Err; [done..|].
    unfold bind_workflow_outputs.
    destruct (keys (outputs (interface self))) as [|out [|??]] eqn:Hk; simpl in Hlen; try lia.
    rewrite bool_decide_eq_true_2; [done|]. simpl in Hvs |- *. lia.
Qed.

(** X5. With exactly one declared output, [compile] hands the returned
    value to the binding helper as it is: a bare value, and equally a
    tuple of one, which is not unwrapped.  The outcome of [compile] is the
    outcome of binding that value. *)
Theorem single_output_passed_unchanged self kw ctx out wo cctx cs :
  keys (outputs (interface self)) = [out] →
  _workflow_function self (dict_update (_construct_input_promises self) kw)
                     (new_compilation_context ctx) = Ok (wo, cctx) →
  compilation_state cctx = Some cs →
  (∀ vs, wo = VTuple vs → length vs = 1) →
  compile self kw ctx =
    (t ← dict_item out (outputs (_native_interface self));
     var ← dict_item out (outputs (interface self));
     b ← binding_from_python_std ctx out (var_type var) wo t;
     Ok (CR_Binding b,
         set_compiled (nodes cs) [b]
           (set_input_parameters
              (transform_inputs_to_parameters (_native_interface self)) self))).
Proof.
  intros Hk Hbody Hcs Hshape.
  assert (bind_workflow_outputs self ctx wo =
            (t ← dict_item out (outputs (_native_interface self));
             var ← dict_item out (outputs (interface self));
             b ← binding_from_python_std ctx out (var_type var) wo t;
             Ok [b])) as Hbs.
  { rewrite (bind_single_output _ _ out) by done.
    destruct wo as [| | | | |vs]; try done.
    by rewrite bool_decide_eq_true_2 by by apply Hshape. }
  destruct (bind_workflow_outputs self ctx wo) as [bs|e] eqn:Hb.
  - rewrite (compile_intro self kw ctx wo cctx cs bs) by done. rewrite Hk.
    symmetry in Hbs.
    apply bind_Ok in Hbs as (t & Ht & Hbs). apply bind_Ok in Hbs as (var & Hvar & Hbs).
    apply bind_Ok in Hbs as (b & Hbfs & [= <-]).
    rewrite Ht. simpl. rewrite Hvar. simpl. by rewrite Hbfs.
  - rewrite (compile_bind_Err self kw ctx wo cctx cs e) by done.
    destruct (dict_item out (outputs (_native_interface self))) as [t|]; simpl in *;
      [|congruence].
    destruct (dict_item out (outputs (interface self))) as [var|]; simpl in *;
      [|congruence].
    destruct (binding_from_python_std ctx out (var_type var) wo t); simpl in *;
      congruence.
Qed.

End compile_arity.

(** ** The arguments the traced body receives *)

Lemma dict_get_set {V} k k' (v : V) (d : dict V) :
  dict_get k (dict_set k' v d) = if decide (k = k') then Some v else dict_get k d.
Proof.
  induction d as [|[k0 v0] d IH]; simpl.
  - done.
  - destruct (decide (k' = k0)) as [->|Hne]; simpl.
    + by destruct (decide (k = k0)).
    + rewrite IH. repeat case_decide; congruence.
Qed.

Lemma dict_get_update {V} k (d e : dict V) :
  NoDup (keys e) →
  dict_get k (dict_update d e) =
    match dict_get k e with Some v => Some v | None => dict_get k d end.
Proof.
  unfold dict_update, keys. revert d.
  induction e as [|[k' v'] e IH]; intros d Hnd; simpl; [done|].
  apply NoDup_cons in Hnd as [Hk' Hnd]. rewrite IH by done.
  destruct (decide (k = k')) as [->|Hne].
  - assert (dict_get k' e = None) as -> by by apply dict_get_None.
    rewrite dict_get_set. by rewrite decide_True.
  - rewrite dict_get_set. by rewrite decide_False.
Qed.

Lemma dict_get_placeholders `{Collaborators} self k :
  dict_get k (_construct_input_promises self) =
    if decide (k ∈ keys (inputs (interface self)))
    then Some (VOutputReference GLOBAL_INPUT_NODE_ID k) else None.
Proof.
  unfold _construct_input_promises.
  induction (keys (inputs (interface self))) as [|k' ks IH].
  - destruct (decide (k ∈ [])) as [Hk|]; [by apply elem_of_nil in Hk|done].
  - rewrite fmap_cons. cbn [dict_get]. rewrite IH.
    destruct (decide (k = k')) as [->|Hne].
    + destruct (decide (k' ∈ k' :: ks)) as [|Hk]; [done|]. destruct Hk. left.
    + destruct (decide (k ∈ ks)) as [Hin|Hout];
        destruct (decide (k ∈ k' :: ks)) as [Hin'|Hout']; try done.
      * destruct Hout'. by right.
      * apply elem_of_cons in Hin' as [?|?]; done.
Qed.

(** X6. A [compile] that returns has called the body with a dictionary in
    which every keyword supplied to [compile] holds the supplied value and
    every other declared input holds the reference to that input on the
    global input node; no other keyword is present. *)
Theorem compile_input_kwargs `{Collaborators} self kw ctx r self' :
  NoDup (keys kw) →
  compile self kw ctx = Ok (r, self') →
  ∃ input_kwargs wo cctx,
    _workflow_function self input_kwargs (new_compilation_context ctx) = Ok (wo, cctx) ∧
    ∀ k, dict_get k input_kwargs =
           match dict_get k kw with
           | Some v => Some v
           | None =>
               if decide (k ∈ keys (inputs (interface self)))
               then Some (VOutputReference GLOBAL_INPUT_NODE_ID k) else None
           end.
Proof.
  intros Hnd (wo & cctx & cs & bs & Hbody & _)%compile_inv.
  eexists _, wo, cctx. split; [exact Hbody|].
  intros k. by rewrite dict_get_update, dict_get_placeholders.
Qed.

Lemma compile_input_kwargs_witness :
  ∃ input_kwargs wo cctx,
    _workflow_function Sample.both input_kwargs (new_compilation_context Sample.top_level)
      = Ok (wo, cctx) ∧
    ∀ k, dict_get k input_kwargs =
           match dict_get k ([] : kwargs) with
           | Some v => Some v
           | None =>
               if decide (k ∈ keys (inputs (interface Sample.both)))
               then Some (VOutputReference (@GLOBAL_INPUT_NODE_ID Sample.collaborators) k)
               else None
           end.
Proof.
  apply (@compile_input_kwargs Sample.collaborators Sample.both [] Sample.top_level
           (CR_Tuple Sample.both_bindings) Sample.both_compiled).
  - constructor.
  - reflexivity.
Defined.

(** ** Local execution works on promises *)





(** ** Node identifiers *)

Lemma string_app_cancel (s x y : string) : s +:+ x = s +:+ y → x = y.
Proof. induction s as [|c s IH]; simpl; [done|]. intros [= Hs]. by apply IH. Qed.

Lemma ids_in_trace_order_NoDup ns :
  ids_in_trace_order ns → NoDup (node_id <$> ns).
Proof.
  intros Hids. apply NoDup_alt. intros i j x Hi Hj.
  apply list_lookup_fmap_Some in Hi as (n & -> & Hn).
  apply list_lookup_fmap_Some in Hj as (m & Hx & Hm).
  rewrite (Hids _ _ Hn), (Hids _ _ Hm) in Hx.
  apply string_app_cancel in Hx. by apply (inj pretty) in Hx.
Qed.

(** X9. Linking keeps the node identifiers in step with the trace: if the
    node at every position [i] of the context is ["node-<i>"], the same
    holds after a call has been linked, the nodes recorded before are
    still there in their places, and no two nodes share an identifier. *)
Theorem link_keeps_ids `{Collaborators} self ctx kw cs v ctx' :
  compilation_state ctx = Some cs →
  ids_in_trace_order (nodes cs) →
  _create_and_link_node self ctx kw = Ok (v, ctx') →
  ∃ cs', compilation_state ctx' = Some cs' ∧
         nodes cs `prefix_of` nodes cs' ∧
         ids_in_trace_order (nodes cs') ∧
         NoDup (node_id <$> nodes cs').
Proof.
  intros Hcs Hids (bs & u & ups & cs0 & _ & _ & _ & Hcs0 & -> & _)%link_Ok.
  rewrite Hcs in Hcs0. injection Hcs0 as <-.
  eexists. split; [done|]. simpl.
  assert (ids_in_trace_order
            (nodes cs ++ [mkNode ("node-" +:+ pretty (length (nodes cs)))
                            (mkNodeMetadata (_name self) 0 0) (sorted b_var bs) ups
                            (_name self)])) as Hids'.
  { intros i n Hi. apply lookup_app_Some in Hi as [Hi|[Hge Hi]]; [by apply Hids|].
    apply list_lookup_singleton_Some in Hi as [Hi <-]. simpl.
    by replace i with (length (nodes cs)) by lia. }
  split; [by apply prefix_app_r|]. split; [done|].
  by apply ids_in_trace_order_NoDup.
Qed.

Lemma link_keeps_ids_witness :
  ∃ cs', Some (mkCompilationState [Sample.node_pair; Sample.node_add]) = Some cs' ∧
         [Sample.node_pair] `prefix_of` nodes cs' ∧
         ids_in_trace_order (nodes cs') ∧
         NoDup (node_id <$> nodes cs').
Proof.
  apply (@link_keeps_ids Sample.collaborators Sample.add Sample.tracing
           [("a", Sample.pair_o0); ("b", Sample.pair_o1)]
           (mkCompilationState [Sample.node_pair])
           (VPromise (mkPromise "o0" (Ref (mkNodeOutput Sample.node_add "o0"))))
           (mkFlyteContext
              (Some (mkCompilationState [Sample.node_pair; Sample.node_add]))
              None None)).
  - reflexivity.
  - intros i n Hi. apply list_lookup_singleton_Some in Hi as [-> <-]. reflexivity.
  - vm_compute. reflexivity.
Defined.

(** ** When a call links *)

(** X10. In a compilation context, when the supplied arguments of declared
    inputs can be bound and every promise among the arguments refers to a
    node output, a call links exactly when the names of its keyword
    arguments are the declared input names. *)
Theorem link_succeeds_iff `{Collaborators} self ctx kw cs :
  compilation_state ctx = Some cs →
  inputs_bindable self ctx kw →
  promises_refer (values kw) →
  is_Ok (_create_and_link_node self ctx kw) ↔
  ∀ k, k ∈ keys kw ↔ k ∈ keys (inputs (interface self)).
Proof.
  intros Hcs Hconv Hrefs. split.
  - intros [[v ctx'] Hl]. by eapply link_Ok_names.
  - intros Hnames.
    destruct (bind_inputs_complete self ctx kw
                (sorted id (keys (inputs (interface self)))) [] ∅) as (bs & Hb).
    { intros k v Hk. apply Hconv. by apply elem_of_sorted_keys. }
    { intros k Hk. by apply Hnames, elem_of_sorted_keys. }
    eexists (_, _). apply link_Ok.
    exists bs, (∅ ∪ list_to_set (sorted id (keys (inputs (interface self))))),
      (omap referenced_node (values kw)), cs.
    split_and!; try done.
    + unfold symmetric_difference. apply set_eq. intros k.
      rewrite !elem_of_union, !elem_of_difference, !elem_of_union, !elem_of_list_to_set,
        elem_of_sorted_keys, elem_of_empty.
      specialize (Hnames k). tauto.
    + by apply upstream_of_Ok.
Qed.

Lemma link_succeeds_iff_witness :
  is_Ok (@_create_and_link_node Sample.collaborators Sample.add Sample.tracing
           [("b", Sample.pair_o1); ("a", VNative (NInt 1))]).
Proof.
  apply (@link_succeeds_iff Sample.collaborators Sample.add Sample.tracing
           [("b", Sample.pair_o1); ("a", VNative (NInt 1))]
           (mkCompilationState [Sample.node_pair]) eq_refl).
  - intros k v _ Hget. simpl in Hget.
    repeat case_decide; simplify_eq; by eexists _, _, _.
  - repeat constructor; intros p [= <-]; by eexists.
  - intros k. unfold keys. simpl. rewrite !elem_of_cons, !elem_of_nil. tauto.
Defined.

(** ** Exporting *)

Lemma mapM_result_Ok {A B} (f : A → result B) l k :
  mapM f l = Ok k → Forall2 (λ x y, f x = Ok y) l k.
Proof.
  revert k. induction l as [|x l IH]; intros k Hk; simpl in Hk.
  - injection Hk as <-. constructor.
  - apply bind_Ok in Hk as (y & Hy & Hk).
    apply bind_Ok in Hk as (k' & Hk' & [= <-]). constructor; auto.
Qed.

(** X11. A workflow that was never compiled cannot be exported: with an
    empty cache and no nodes [get_registerable_entity] fails in every
    context, and when the context has registration settings the failure is
    the [TypeError] of iterating over [None]. *)
Theorem export_requires_compile `{Collaborators} self ctx :
  _registerable_entity self = None → _nodes self = None →
  is_Err (get_registerable_entity self ctx) ∧
  (is_Some (registration_settings ctx) →
   get_registerable_entity self ctx = Err (TypeError "'NoneType' object is not iterable")).
Proof.
  intros Hcache Hnodes.
  unfold get_registerable_entity, current_registration_settings.
  rewrite Hcache, Hnodes.
  destruct (registration_settings ctx); simpl; split; try by eexists.
  by intros [? ?].
Qed.

Lemma export_requires_compile_witness :
  is_Err (@get_registerable_entity Sample.collaborators Sample.both
            (Sample.registering Sample.settings_v1)).
Proof.
  exact (proj1 (@export_requires_compile Sample.collaborators Sample.both
                  (Sample.registering Sample.settings_v1) eq_refl eq_refl)).
Defined.

(** X12. The first export of a compiled workflow: the entity holds the
    exported form of every node, in the order of the nodes, the typed
    interface and the output bindings of the workflow, and an identifier
    of resource type workflow; the workflow keeps its nodes and bindings
    and now caches the entity. *)
Theorem export_contents `{Collaborators} self ctx e self1 :
  _registerable_entity self = None →
  get_registerable_entity self ctx = Ok (e, self1) →
  ∃ ns, _nodes self = Some ns ∧
        Forall2 (λ n sn, node_get_registerable_entity ctx n = Ok sn) ns (sw_nodes e) ∧
        sw_interface e = _interface self ∧
        sw_output_bindings e = _output_bindings self ∧
        id_resource_type (sw_id e) = WORKFLOW ∧
        self1 = set_registerable_entity e self.
Proof.
  unfold get_registerable_entity. intros Hcache Hg.
  apply bind_Ok in Hg as (s & _ & Hg). rewrite Hcache in Hg.
  apply bind_Ok in Hg as (ns & Hns & Hg).
  apply bind_Ok in Hg as (sns & Hsns%mapM_result_Ok & [= <- <-]).
  destruct (_nodes self) as [ns'|]; [|done]. injection Hns as ->.
  by exists ns.
Qed.

Lemma export_contents_witness :
  ∃ ns, _nodes Sample.both_compiled = Some ns ∧
        length ns = 2.
Proof.
  destruct (@export_contents Sample.collaborators Sample.both_compiled
              (Sample.registering Sample.settings_v1)
              (mkSdkWorkflow
                 [mkSdkNode "node-0" [] (node_bindings Sample.node_pair);
                  mkSdkNode "node-1" ["node-0"; "node-0"] (node_bindings Sample.node_add)]
                 (mkIdentifier WORKFLOW "proj" "dom" "m.both" "1")
                 (_interface Sample.both) (Some Sample.both_bindings))
              (set_registerable_entity
                 (mkSdkWorkflow
                    [mkSdkNode "node-0" [] (node_bindings Sample.node_pair);
                     mkSdkNode "node-1" ["node-0"; "node-0"]
                       (node_bindings Sample.node_add)]
                    (mkIdentifier WORKFLOW "proj" "dom" "m.both" "1")
                    (_interface Sample.both) (Some Sample.both_bindings))
                 Sample.both_compiled)
              eq_refl eq_refl) as (ns & Hns & Hall & _).
  exists ns. split; [exact Hns|].
  injection Hns as <-. reflexivity.
Defined.

(** X13. [compile] never touches the export cache: once a workflow has
    been exported, compiling it again, with whatever result, leaves every
    further export made while registration settings are active returning
    the entity of the first one. *)
Theorem export_survives_recompile (C C' C'' : Collaborators) self ctx e self1
    kw ctx1 r self2 :
  @get_registerable_entity C self ctx = Ok (e, self1) →
  @compile C' self1 kw ctx1 = Ok (r, self2) →
  ∀ ctx2, is_Some (registration_settings ctx2) →
          @get_registerable_entity C'' self2 ctx2 = Ok (e, self2).
Proof.
  intros Hg (wo & cctx & cs & bs & _ & _ & _ & -> & _)%compile_inv ctx2 [s Hs].
  pose proof (@get_registerable_entity_fills_cache C _ _ _ _ Hg) as Hcache.
  rewrite (@get_registerable_entity_cached C'' _ ctx2 e); [by rewrite Hs|done].
Qed.

Lemma export_survives_recompile_witness :
    @get_registerable_entity Sample.broken_exporter
       (set_compiled [] []
          (set_input_parameters []
             (set_registerable_entity
                (mkSdkWorkflow [] (mkIdentifier WORKFLOW "proj" "dom" "m.noop" "1")
                   (mkInterface [] []) (Some []))
                (set_compiled [] [] Sample.noop))))
       (Sample.registering Sample.settings_v2)
    = Ok (mkSdkWorkflow [] (mkIdentifier WORKFLOW "proj" "dom" "m.noop" "1")
            (mkInterface [] []) (Some []),
          set_compiled [] []
            (set_input_parameters []
               (set_registerable_entity
                  (mkSdkWorkflow [] (mkIdentifier WORKFLOW "proj" "dom" "m.noop" "1")
                     (mkInterface [] []) (Some []))
                  (set_compiled [] [] Sample.noop)))).
Proof.
  apply (export_survives_recompile Sample.collaborators Sample.collaborators
           Sample.broken_exporter (set_compiled [] [] Sample.noop)
           (Sample.registering Sample.settings_v1)
           (mkSdkWorkflow [] (mkIdentifier WORKFLOW "proj" "dom" "m.noop" "1")
              (mkInterface [] []) (Some []))
           (set_registerable_entity
              (mkSdkWorkflow [] (mkIdentifier WORKFLOW "proj" "dom" "m.noop" "1")
                 (mkInterface [] []) (Some []))
              (set_compiled [] [] Sample.noop))
           [] Sample.top_level CR_None _ ltac:(reflexivity) ltac:(reflexivity)
           (Sample.registering Sample.settings_v2) (mk_is_Some _ _ eq_refl)).
Defined.

(** ** The decorator *)

(** X14. A workflow object that the decorator returns is compiled: its
    body was traced once, in a fresh compilation context, with every
    declared input bound to its reference on the global input node and
    nothing else; the object is named after module and function, holds the
    nodes of that trace and its output bindings, has an empty export
    cache, and carries the fixed identifier of the decorator. *)
Theorem decorated_is_compiled `{Collaborators} fn ctx w i :
  wrapper fn ctx = Ok (w, i) →
  i = mkIdentifier WORKFLOW "proj" "dom" "moreblah" "1" ∧
  _name w = fn_module fn +:+ "." +:+ fn_name fn ∧
  _registerable_entity w = None ∧
  ∃ wo cctx cs bs,
    fn_body fn ((λ k, (k, VOutputReference GLOBAL_INPUT_NODE_ID k))
                  <$> keys (inputs (transform_interface_to_typed_interface
                                      (fn_signature fn))))
            (new_compilation_context ctx) = Ok (wo, cctx) ∧
    compilation_state cctx = Some cs ∧
    _nodes w = Some (nodes cs) ∧
    _output_bindings w = Some bs ∧
    length bs = length (outputs (transform_interface_to_typed_interface (fn_signature fn))).
Proof.
  unfold wrapper. intros Hw.
  apply bind_Ok in Hw as ([r w'] & Hc & [= <- <-]).
  apply compile_inv in Hc as (wo & cctx & cs & bs & Hbody & Hcs & Hbs & -> & _).
  split; [done|]. split; [done|]. split; [done|].
  exists wo, cctx, cs, bs. split; [exact Hbody|]. split; [done|]. split; [done|].
  split; [done|].
  apply bind_workflow_outputs_spec, Forall2_length in Hbs.
  rewrite length_keys in Hbs. done.
Qed.

Lemma decorated_is_compiled_witness :
  @wrapper Sample.collaborators sample_main_fn Sample.top_level
    = Ok (sample_main_compiled, mkIdentifier WORKFLOW "proj" "dom" "moreblah" "1") ∧
  _name sample_main_compiled = "m.main" ∧
  _nodes sample_main_compiled = Some [sample_node_main_add].
Proof.
  assert (@wrapper Sample.collaborators sample_main_fn Sample.top_level
            = Ok (sample_main_compiled, mkIdentifier WORKFLOW "proj" "dom" "moreblah" "1"))
    as Hw by reflexivity.
  split; [exact Hw|].
  split; [|reflexivity].
  exact (proj1 (proj2 (@decorated_is_compiled Sample.collaborators _ _ _ _ Hw))).
Defined.

(** ** Top-level calls, continued *)

(** X15. The sanity checks of a top-level call pass exactly when every
    keyword is a declared input and no value is a promise; they do not ask
    for every declared input to be supplied. *)
Theorem check_native_kwargs_iff `{Collaborators} self kw :
  check_native_kwargs self kw = Ok () ↔
  ∀ k v, (k, v) ∈ kw → k ∈ keys (inputs (interface self)) ∧ ∀ p, v ≠ VPromise p.
Proof.
  split; [apply check_native_kwargs_Ok|].
  intros Hall. destruct (check_native_kwargs self kw) as [[]|e] eqn:Hc; [done|].
  exfalso. induction kw as [|[k v] kw IH]; simpl in Hc; [done|].
  destruct (Hall k v) as [Hk Hv]; [left|].
  apply dict_mem_keys in Hk. rewrite Hk in Hc. simpl in Hc.
  destruct v as [|n|p|nid x| |ws];
    try (apply IH; [intros; apply Hall; by right|done]).
  by destruct (Hv p).
Qed.

(** ** Concrete instances *)

Lemma outputs_to_promise_Ok_witness :
  [("o0", T_int); ("o1", T_int)] ≠ ([] : dict PyType) ∧
  p_var <$> [mkPromise "o0" (Ref (mkNodeOutput Sample.node_pair "o1"));
             mkPromise "o1" (Ready (Lit_integer 1))]
    = keys [("o0", T_int); ("o1", T_int)].
Proof.
  destruct (@outputs_to_promise_Ok Sample.collaborators Sample.top_level
              [("o0", T_int); ("o1", T_int)]
              [("o0", mkVariable LT_integer ""); ("o1", mkVariable LT_integer "")]
              (VTuple [Sample.pair_o1; VNative (NInt 1)])
              (Some [mkPromise "o0" (Ref (mkNodeOutput Sample.node_pair "o1"));
                     mkPromise "o1" (Ready (Lit_integer 1))])
              eq_refl) as (Hne & Hvars & _).
  split; [exact Hne|exact Hvars].
Defined.

Lemma compile_Ok_arity_witness :
  ∃ wo cctx,
    _workflow_function Sample.both
        (dict_update (@_construct_input_promises Sample.collaborators Sample.both) [])
        (new_compilation_context Sample.top_level) = Ok (wo, cctx) ∧
    (1 < length (outputs (interface Sample.both)) →
     ∃ vs, wo = VTuple vs ∧ length vs = length (outputs (interface Sample.both)) ∧
           Forall (λ v, v ≠ VConditionalSection) vs).
Proof.
  destruct (@compile_Ok_arity Sample.collaborators Sample.both [] Sample.top_level
              (CR_Tuple Sample.both_bindings) Sample.both_compiled eq_refl)
    as (wo & cctx & Hbody & _ & Hmany).
  exists wo, cctx. split; [exact Hbody|exact Hmany].
Defined.

Lemma compile_arity_errors_witness :
  @compile Sample.collaborators sample_two_for_one [] Sample.top_level
    = Err (AssertionError
             ("The Workflow specification indicates only one return value, received "
              +:+ pretty 2)).
Proof.
  apply (proj1 (@compile_arity_errors Sample.collaborators sample_two_for_one []
                  Sample.top_level (VTuple [VNative (NInt 1); VNative (NInt 2)])
                  (new_compilation_context Sample.top_level) (mkCompilationState [])
                  eq_refl eq_refl)
           [VNative (NInt 1); VNative (NInt 2)]).
  - reflexivity.
  - reflexivity.
  - simpl. lia.
Defined.

Lemma single_output_passed_unchanged_witness :
  @compile Sample.collaborators Sample.main [] Sample.top_level =
    (t ← dict_item "o0" (outputs (_native_interface Sample.main));
     var ← dict_item "o0" (outputs (interface Sample.main));
     b ← @binding_from_python_std Sample.collaborators Sample.top_level "o0" (var_type var)
           (VPromise (mkPromise "o0" (Ref (mkNodeOutput sample_node_main_add "o0")))) t;
     Ok (CR_Binding b,
         set_compiled [sample_node_main_add] [b]
           (set_input_parameters
              (@transform_inputs_to_parameters Sample.collaborators
                 (_native_interface Sample.main))
              Sample.main))).
Proof.
  apply (@single_output_passed_unchanged Sample.collaborators Sample.main [] Sample.top_level "o0"
           (VPromise (mkPromise "o0" (Ref (mkNodeOutput sample_node_main_add "o0"))))
           (mkFlyteContext (Some (mkCompilationState [sample_node_main_add])) None None)
           (mkCompilationState [sample_node_main_add])).
  - reflexivity.
  - reflexivity.
  - reflexivity.
  - intros vs Hvs. discriminate Hvs.
Defined.

(** ** Compiling, then exporting *)

Lemma mapM_result_complete {A B} (f : A → result B) l :
  Forall (λ x, is_Ok (f x)) l → is_Ok (mapM f l).
Proof.
  induction 1 as [|x l [y Hy] _ [k Hk]]; simpl; [by eexists|].
  rewrite Hy. simpl. rewrite Hk. by eexists.
Qed.

(** X16. A workflow that compiled can be exported: with an empty cache,
    registration settings in the context and every recorded node
    exportable, [get_registerable_entity] succeeds on the compiled object,
    and the entity carries the output bindings that [compile] stored and
    one exported node per recorded node. *)
Theorem compile_then_export `{Collaborators} self kw ctx r self' ctx' :
  compile self kw ctx = Ok (r, self') →
  _registerable_entity self = None →
  is_Some (registration_settings ctx') →
  (∀ ns, _nodes self' = Some ns →
         Forall (λ n, is_Ok (node_get_registerable_entity ctx' n)) ns) →
  ∃ e, get_registerable_entity self' ctx' = Ok (e, set_registerable_entity e self') ∧
       sw_output_bindings e = _output_bindings self' ∧
       (∀ ns, _nodes self' = Some ns → length (sw_nodes e) = length ns).
Proof.
  intros (wo & cctx & cs & bs & _ & _ & _ & -> & _)%compile_inv Hcache [s Hs] Hexp.
  destruct (mapM_result_complete (node_get_registerable_entity ctx') (nodes cs))
    as [sns Hsns]; [by apply Hexp|].
  unfold get_registerable_entity, current_registration_settings. simpl.
  rewrite Hcache, Hs. simpl. rewrite Hsns. simpl.
  eexists. split; [done|]. split; [done|]. simpl.
  intros ns [= <-]. apply mapM_result_Ok, Forall2_length in Hsns. done.
Qed.

Lemma compile_then_export_witness :
  ∃ e, @get_registerable_entity Sample.collaborators Sample.both_compiled
         (Sample.registering Sample.settings_v1)
       = Ok (e, set_registerable_entity e Sample.both_compiled) ∧
       sw_output_bindings e = _output_bindings Sample.both_compiled.
Proof.
  destruct (@compile_then_export Sample.collaborators Sample.both [] Sample.top_level
              (CR_Tuple Sample.both_bindings) Sample.both_compiled
              (Sample.registering Sample.settings_v1) eq_refl eq_refl)
    as (e & He & Hbs & _).
  - by eexists.
  - intros ns Hns. injection Hns as <-. repeat constructor; by eexists.
  - exists e. split; [exact He|exact Hbs].
Defined.
